(** * The action / operation lifecycle of [state/action.go]

    A shallow embedding of the action entity of the [state] package: the
    documents it stores, the transactions its transitions build
    ([Begin], [Finish]/[removeAndLog], [Log], [EnqueueAction]), the queries
    ([Action], [FindActionTagsById]) and the id allocation of
    [newActionDoc].  The database is a record of finite maps, one per
    collection, and a transaction is a list of guarded operations applied
    atomically. *)

From Stdlib Require Import ZArith Lia Ascii String DecimalString.
From stdpp Require Import base option list gmap strings fin_maps.

Open Scope Z_scope.

(** ** Statuses *)

(** [ActionStatus] with the five constants of the source. *)
Inductive ActionStatus :=
| ActionFailed
| ActionCompleted
| ActionCancelled
| ActionPending
| ActionRunning.

Global Instance ActionStatus_eq_dec : EqDecision ActionStatus.
Proof. solve_decision. Defined.

Definition ActionStatus_to_nat (s : ActionStatus) : nat :=
  match s with
  | ActionFailed => 0 | ActionCompleted => 1 | ActionCancelled => 2
  | ActionPending => 3 | ActionRunning => 4
  end%nat.

Definition ActionStatus_of_nat (n : nat) : option ActionStatus :=
  match n with
  | 0 => Some ActionFailed | 1 => Some ActionCompleted
  | 2 => Some ActionCancelled | 3 => Some ActionPending
  | 4 => Some ActionRunning | _ => None
  end%nat.

Global Program Instance ActionStatus_countable : Countable ActionStatus :=
  inj_countable ActionStatus_to_nat ActionStatus_of_nat _.
Next Obligation. by intros []. Qed.

(** The three statuses after which no transition is permitted. *)
Definition terminalStatuses : list ActionStatus :=
  [ActionCompleted; ActionCancelled; ActionFailed].

Definition isTerminal (s : ActionStatus) : bool :=
  bool_decide (s ∈ terminalStatuses).

(** The test of the counting loop of [removeAndLog]:
    [status != ActionPending && status != ActionRunning]. *)
Definition countsAsComplete (s : ActionStatus) : bool :=
  negb (bool_decide (s = ActionPending)) && negb (bool_decide (s = ActionRunning)).

(** Modelled from the spec: [statusCompletedOrder] is declared next to the
    operation entity, outside the file at hand.  The spec fixes it as an
    abnormal-outcome-first precedence list in which Failed outranks
    Completed. *)
Definition statusCompletedOrder : list ActionStatus :=
  [ActionFailed; ActionCancelled; ActionCompleted].

(** ** Errors *)

Inductive error :=
| mgoErrNotFound
| StoreErr (msg : string)
| NotFoundf (what : string) (id : string)
| Annotatef (cause : error) (msg : string) (id : string)
| Traced (cause : error)
| Errorf_cannot_log (id : string) (s : ActionStatus)
| Errorf_unexpected_attempt (attempt : nat)
| New_action_name_required
| ErrDead
| ErrExcessiveContention.

Global Instance error_eq_dec : EqDecision error.
Proof. solve_decision. Defined.

(** [errors.Cause]: the error under the traces and annotations. *)
Fixpoint Cause (e : error) : error :=
  match e with
  | Traced c => Cause c
  | Annotatef c _ _ => Cause c
  | _ => e
  end.

Definition IsNotFound (e : error) : bool :=
  match Cause e with
  | NotFoundf _ _ => true
  | _ => false
  end.

Inductive Result (A : Type) :=
| Ok (a : A)
| Err (e : error).
Arguments Ok {A} a.
Arguments Err {A} e.

Definition isErr {A} (r : Result A) : bool :=
  match r with Ok _ => false | Err _ => true end.

(** ** Documents *)

Definition Time := Z.
Definition Payload := list (string * string).

Record ActionMessage := mkActionMessage {
  MessageValue : string;
  TimestampValue : Time
}.

Record actionDoc := mkActionDoc {
  DocId : string;
  ModelUUID : string;
  Receiver : string;
  Name : string;
  Parameters : Payload;
  Enqueued : Time;
  Started : Time;
  Completed : Time;
  Operation : string;
  Status : ActionStatus;
  Message : string;
  Results : Payload;
  Logs : list ActionMessage
}.

Record actionNotificationDoc := mkActionNotificationDoc {
  nDocId : string;
  nModelUUID : string;
  nReceiver : string;
  nActionID : string
}.

(** Modelled from the spec: the operation document is declared with the
    operation entity, outside the file at hand.  The transitions of an
    action read its status and its complete-task-count and write its
    status, its two stamps and its complete-task-count. *)
Record operationDoc := mkOperationDoc {
  oDocId : string;
  oStatus : ActionStatus;
  oStarted : Time;
  oCompleted : Time;
  oCompleteTaskCount : Z
}.

(** The in-memory operation: its document and the statuses of its tasks as
    last read. *)
Record operation := mkOperation {
  odoc : operationDoc;
  taskStatus : list ActionStatus
}.

(** The in-memory action: [action{st, doc}]; the [st] handle is the
    section context below. *)
Record action := newAction {
  doc : actionDoc
}.

Inductive Life := Alive | Dying | Dead.

Global Instance Life_eq_dec : EqDecision Life.
Proof. solve_decision. Defined.

(** ** The database and its transactions *)

Record Database := mkDatabase {
  actions : gmap string actionDoc;
  actionNotifications : gmap string actionNotificationDoc;
  operations : gmap string operationDoc;
  entities : gmap (string * string) Life
}.

Inductive Collection :=
| actionsC
| actionNotificationsC
| operationsC
| entityC (name : string).

(** The assertions the transactions of this file use. *)
Inductive Assertion :=
| AssertNil
| DocExists
| DocMissing
| AssertStatus (s : ActionStatus)
| AssertStatusNin (l : list ActionStatus)
| AssertCompleteTaskCount (n : Z)
| notDeadDoc.

Inductive SetField :=
| SetStatus (s : ActionStatus)
| SetStarted (t : Time)
| SetCompleted (t : Time)
| SetMessage (m : string)
| SetResults (r : Payload)
| SetCompleteTaskCount (n : Z).

Inductive UpdateDoc :=
| DollarSet (fields : list SetField)
| DollarPushMessages (m : ActionMessage).

Inductive InsertDoc :=
| InsertAction (d : actionDoc)
| InsertNotification (d : actionNotificationDoc).

(** [txn.Op]. *)
Record Op := mkOp {
  opC : Collection;
  opId : string;
  opAssert : Assertion;
  opInsert : option InsertDoc;
  opUpdate : option UpdateDoc;
  opRemove : bool
}.

(** What an assertion can see of a stored document: whether it exists and
    the fields the assertions above query. *)
Record DocView := mkDocView {
  vStatus : option ActionStatus;
  vCompleteTaskCount : option Z;
  vLife : option Life
}.

Definition viewDoc (db : Database) (c : Collection) (id : string) : option DocView :=
  match c with
  | actionsC =>
      (λ d, mkDocView (Some (Status d)) None None) <$> actions db !! id
  | actionNotificationsC =>
      (λ _, mkDocView None None None) <$> actionNotifications db !! id
  | operationsC =>
      (λ d, mkDocView (Some (oStatus d)) (Some (oCompleteTaskCount d)) None)
        <$> operations db !! id
  | entityC name =>
      (λ l, mkDocView None None (Some l)) <$> entities db !! (name, id)
  end.

(** An assertion is a query on the document of the operation; a query
    never matches an absent document, and [$nin] and [$ne] match a
    document without the queried field. *)
Definition checkAssertion (a : Assertion) (v : option DocView) : bool :=
  match a, v with
  | AssertNil, _ => true
  | DocExists, Some _ => true
  | DocMissing, None => true
  | AssertStatus s, Some d => bool_decide (vStatus d = Some s)
  | AssertStatusNin l, Some d =>
      match vStatus d with
      | Some s => negb (bool_decide (s ∈ l))
      | None => true
      end
  | AssertCompleteTaskCount n, Some d => bool_decide (vCompleteTaskCount d = Some n)
  | notDeadDoc, Some d => negb (bool_decide (vLife d = Some Dead))
  | _, _ => false
  end.

Definition checkOp (db : Database) (o : Op) : bool :=
  checkAssertion (opAssert o) (viewDoc db (opC o) (opId o)).

Definition setActionField (f : SetField) (d : actionDoc) : actionDoc :=
  match f with
  | SetStatus s =>
      mkActionDoc (DocId d) (ModelUUID d) (Receiver d) (Name d) (Parameters d)
        (Enqueued d) (Started d) (Completed d) (Operation d) s (Message d)
        (Results d) (Logs d)
  | SetStarted t =>
      mkActionDoc (DocId d) (ModelUUID d) (Receiver d) (Name d) (Parameters d)
        (Enqueued d) t (Completed d) (Operation d) (Status d) (Message d)
        (Results d) (Logs d)
  | SetCompleted t =>
      mkActionDoc (DocId d) (ModelUUID d) (Receiver d) (Name d) (Parameters d)
        (Enqueued d) (Started d) t (Operation d) (Status d) (Message d)
        (Results d) (Logs d)
  | SetMessage m =>
      mkActionDoc (DocId d) (ModelUUID d) (Receiver d) (Name d) (Parameters d)
        (Enqueued d) (Started d) (Completed d) (Operation d) (Status d) m
        (Results d) (Logs d)
  | SetResults r =>
      mkActionDoc (DocId d) (ModelUUID d) (Receiver d) (Name d) (Parameters d)
        (Enqueued d) (Started d) (Completed d) (Operation d) (Status d)
        (Message d) r (Logs d)
  | SetCompleteTaskCount _ => d
  end.

Definition pushActionMessage (m : ActionMessage) (d : actionDoc) : actionDoc :=
  mkActionDoc (DocId d) (ModelUUID d) (Receiver d) (Name d) (Parameters d)
    (Enqueued d) (Started d) (Completed d) (Operation d) (Status d)
    (Message d) (Results d) (Logs d ++ [m]).

Definition setOperationField (f : SetField) (d : operationDoc) : operationDoc :=
  match f with
  | SetStatus s =>
      mkOperationDoc (oDocId d) s (oStarted d) (oCompleted d) (oCompleteTaskCount d)
  | SetStarted t =>
      mkOperationDoc (oDocId d) (oStatus d) t (oCompleted d) (oCompleteTaskCount d)
  | SetCompleted t =>
      mkOperationDoc (oDocId d) (oStatus d) (oStarted d) t (oCompleteTaskCount d)
  | SetCompleteTaskCount n =>
      mkOperationDoc (oDocId d) (oStatus d) (oStarted d) (oCompleted d) n
  | SetMessage _ | SetResults _ => d
  end.

Definition updateAction (u : UpdateDoc) (d : actionDoc) : actionDoc :=
  match u with
  | DollarSet fields => foldl (λ d f, setActionField f d) d fields
  | DollarPushMessages m => pushActionMessage m d
  end.

Definition updateOperation (u : UpdateDoc) (d : operationDoc) : operationDoc :=
  match u with
  | DollarSet fields => foldl (λ d f, setOperationField f d) d fields
  | DollarPushMessages _ => d
  end.

Definition withActions (db : Database) (m : gmap string actionDoc) : Database :=
  mkDatabase m (actionNotifications db) (operations db) (entities db).

Definition withNotifications (db : Database)
  (m : gmap string actionNotificationDoc) : Database :=
  mkDatabase (actions db) m (operations db) (entities db).

Definition withOperations (db : Database) (m : gmap string operationDoc) : Database :=
  mkDatabase (actions db) (actionNotifications db) m (entities db).

(** The change of one operation.  A removal and an update of an absent
    document, and an insert over a present one, leave the database as it
    is; the receiver collections are only ever asserted on. *)
Definition applyOp (db : Database) (o : Op) : Database :=
  match opC o with
  | actionsC =>
      if opRemove o then withActions db (delete (opId o) (actions db))
      else match opInsert o, opUpdate o with
           | Some (InsertAction d), _ =>
               match actions db !! opId o with
               | None => withActions db (<[opId o := d]> (actions db))
               | Some _ => db
               end
           | _, Some u => withActions db (alter (updateAction u) (opId o) (actions db))
           | _, None => db
           end
  | actionNotificationsC =>
      if opRemove o
      then withNotifications db (delete (opId o) (actionNotifications db))
      else match opInsert o with
           | Some (InsertNotification d) =>
               match actionNotifications db !! opId o with
               | None => withNotifications db (<[opId o := d]> (actionNotifications db))
               | Some _ => db
               end
           | _ => db
           end
  | operationsC =>
      if opRemove o then withOperations db (delete (opId o) (operations db))
      else match opUpdate o with
           | Some u =>
               withOperations db (alter (updateOperation u) (opId o) (operations db))
           | None => db
           end
  | entityC _ => db
  end.

(** A transaction: every assertion is tested on the database as it is
    before any change takes place, and the transaction is aborted as a
    whole ([None]) if one of them fails. *)
Definition applyOps (ops : list Op) (db : Database) : option Database :=
  if forallb (checkOp db) ops then Some (foldl applyOp db ops) else None.

(** Modelled from the spec: the transaction runner is consumed, not part
    of the file at hand.  It calls the builder with a zero-based attempt
    number, returns at once the error of a builder, commits the
    operations the builder returns, and on an aborted transaction tries
    again while the budget of attempts lasts; once the budget is spent it
    fails with the runner's generic contention error.  The builders of
    this file are closures over variables they assign to, which the
    runner threads here as the local state [l]. *)
Fixpoint runAttempts {L : Type} (budget : nat) (attempt : nat)
  (buildTxn : nat → L → Database → Result (list Op) * L)
  (l : L) (db : Database) : Result unit * Database :=
  match budget with
  | O => (Err ErrExcessiveContention, db)
  | S budget' =>
      let '(r, l') := buildTxn attempt l db in
      match r with
      | Err e => (Err e, db)
      | Ok ops =>
          match applyOps ops db with
          | Some db' => (Ok tt, db')
          | None => runAttempts budget' (S attempt) buildTxn l' db
          end
      end
  end.

(** ** What the package consumes *)

Record Number := mkNumber {
  Major : Z;
  Minor : Z;
  Tag : string;
  Patch : Z;
  Build : Z
}.

Record names_Tag := mkTag {
  Kind : string;
  Id : string
}.

Record ActionTag := NewActionTag {
  ActionTag_Id : string
}.

Record UUID := mkUUID {
  uuidBytes : list Z
}.

(** The state handle [st] (its model-scoped ids, its clock, its model and
    the runner's budget) and the collaborators the file calls into: the
    version order, the two id sources, receiver resolution, the shape
    test of action ids, the store's regular-expression match and the
    suffix function [ensureSuffixFn(actionMarker)]. *)
Class Backend := {
  modelUUID : string;
  docID : string → string;
  localID : string → string;
  nowToTheSecond : Time;
  st_Model : Result unit;
  AgentVersion : Result Number;
  Compare : Number → Number → Z;
  sequenceWithMin : string → Z → Result Z;
  NewUUID : Result UUID;
  UUID_String : UUID → string;
  tagToCollectionAndId : names_Tag → Result (string * string);
  IsValidAction : string → bool;
  regexMatch : string → string → bool;
  ensureActionMarker : string → string;
  nrRetries : nat
}.

(** [strconv.Itoa]. *)
Definition Itoa (n : Z) : string := NilZero.string_of_int (Z.to_int n).

(** [strings.ContainsAny]. *)
Fixpoint ContainsAny (s chars : string) : bool :=
  match s with
  | EmptyString => false
  | String c rest =>
      existsb (λ x, bool_decide (x = c)) (String.list_ascii_of_string chars)
      || ContainsAny rest chars
  end.

Definition UnitTagKind : string := "unit".

(** [version.MustParse("2.6.999")]. *)
Definition MinVersionSupportNewActionID : Number := mkNumber 2 6 "" 999 0.

Section Action.
Context `{Backend}.

Definition Run {L : Type} (buildTxn : nat → L → Database → Result (list Op) * L)
  (l : L) (db : Database) : Result unit * Database :=
  runAttempts nrRetries 0 buildTxn l db.

(** *** Accessors of [action] *)

Definition action_Id (a : action) : string := localID (DocId (doc a)).
Definition action_Receiver (a : action) : string := Receiver (doc a).
Definition action_Status (a : action) : ActionStatus := Status (doc a).

(** *** [Model.Action] *)

(** [actions.FindId(id).One(&doc)] on the model-scoped collection. *)
Definition FindId_One (db : Database) (id : string) : Result actionDoc :=
  match actions db !! docID id with
  | Some d => Ok d
  | None => Err mgoErrNotFound
  end.

(** The body of [Model.Action] after the query. *)
Definition Action_of (found : Result actionDoc) (id : string) : Result action :=
  match found with
  | Err mgoErrNotFound => Err (NotFoundf "action" id)
  | Err err => Err (Annotatef err "cannot get action" id)
  | Ok d => Ok (newAction d)
  end.

Definition Model_Action (db : Database) (id : string) : Result action :=
  Action_of (FindId_One db id) id.

(** *** The parent operation *)

(** The statuses of the actions whose parent operation is [id]. *)
Definition tasksOf (db : Database) (id : string) : list ActionStatus :=
  (λ kd, Status kd.2) <$>
    map_to_list (filter (λ kd : string * actionDoc, Operation kd.2 = id) (actions db)).

(** Modelled from the spec: [Model.Operation] and [operation.Refresh] are
    declared with the operation entity, outside the file at hand.  A
    lookup by identifier signals an unknown id as not-found and otherwise
    yields the operation's document with a snapshot of the statuses of
    its child actions; a refresh re-reads both. *)
Definition Model_Operation (db : Database) (id : string) : Result operation :=
  match operations db !! docID id with
  | None => Err (NotFoundf "operation" id)
  | Some d => Ok (mkOperation d (tasksOf db id))
  end.

Definition operation_Id (p : operation) : string := localID (oDocId (odoc p)).

Definition operation_Refresh (db : Database) (p : operation) : operation * option error :=
  match Model_Operation db (operation_Id p) with
  | Ok p' => (p', None)
  | Err e => (p, Some e)
  end.

(** *** [Begin] *)

Definition Begin_buildTxn (a : action) (startedTime : Time) (attempt : nat)
  (parentOperation : option operation) (db : Database)
  : Result (list Op) * option operation :=
  let ops :=
    [mkOp actionsC (DocId (doc a)) (AssertStatus ActionPending) None
       (Some (DollarSet [SetStatus ActionRunning; SetStarted startedTime])) false] in
  match parentOperation with
  | Some p =>
      let '(p, err) :=
        if (0 <? attempt)%nat then operation_Refresh db p else (p, None) in
      match err with
      | Some e =>
          if negb (IsNotFound e) then (Err (Traced e), Some p)
          else (Ok ops, Some p)
      | None =>
          if bool_decide (oStatus (odoc p) = ActionPending)
          then
            (Ok (ops ++
               [mkOp operationsC (docID (operation_Id p)) (AssertStatus ActionPending)
                  None
                  (Some (DollarSet [SetStatus ActionRunning; SetStarted startedTime]))
                  false]),
             Some p)
          else (Ok ops, Some p)
      end
  | None => (Ok ops, None)
  end.

(** The part of [Begin] after the parent operation has been read. *)
Definition Begin_with (parentOperation : option operation) (a : action)
  (db : Database) : Result action * Database :=
  let startedTime := nowToTheSecond in
  match Run (Begin_buildTxn a startedTime) parentOperation db with
  | (Err err, db') => (Err (Traced err), db')
  | (Ok _, db') => (Model_Action db' (action_Id a), db')
  end.

Definition Begin (a : action) (db : Database) : Result action * Database :=
  match st_Model with
  | Err err => (Err (Traced err), db)
  | Ok _ =>
      match Model_Operation db (Operation (doc a)) with
      | Err err =>
          if negb (IsNotFound err) then (Err (Traced err), db)
          else Begin_with None a db
      | Ok p => Begin_with (Some p) a db
      end
  end.

(** *** [Finish] and [removeAndLog] *)

Record ActionResults := mkActionResults {
  arStatus : ActionStatus;
  arResults : Payload;
  arMessage : string
}.

Definition assertNotComplete : Assertion :=
  AssertStatusNin [ActionCompleted; ActionCancelled; ActionFailed].

(** The loop over the task statuses: the set of statuses seen, seeded with
    the final status, and the number of tasks neither pending nor
    running. *)
Definition countTasks (finalStatus : ActionStatus) (tasks : list ActionStatus)
  : gset ActionStatus * Z :=
  foldl (λ (acc : gset ActionStatus * Z) status,
           ({[status]} ∪ acc.1,
            if countsAsComplete status then acc.2 + 1 else acc.2))
        ({[finalStatus]}, 0) tasks.

(** The loop over the precedence list, with its [break]. *)
Fixpoint firstContained (order : list ActionStatus) (statusStats : gset ActionStatus)
  (finalOperationStatus : ActionStatus) : ActionStatus :=
  match order with
  | [] => finalOperationStatus
  | s :: rest =>
      if bool_decide (s ∈ statusStats) then s
      else firstContained rest statusStats finalOperationStatus
  end.

(** The operation on the parent of a finishing action. *)
Definition updateOperationOp (p : operation) (finalStatus : ActionStatus)
  (completedTime : Time) : Op :=
  let tasks := taskStatus p in
  let '(statusStats, numComplete) := countTasks finalStatus tasks in
  if numComplete =? Z.of_nat (length tasks) - 1 then
    let finalOperationStatus :=
      firstContained statusCompletedOrder statusStats finalStatus in
    mkOp operationsC (docID (operation_Id p)) assertNotComplete None
      (Some (DollarSet [SetStatus finalOperationStatus;
                        SetCompleted completedTime;
                        SetCompleteTaskCount (numComplete + 1)]))
      false
  else
    mkOp operationsC (docID (operation_Id p))
      (AssertCompleteTaskCount (oCompleteTaskCount (odoc p))) None
      (Some (DollarSet [SetCompleteTaskCount (numComplete + 1)]))
      false.

Definition removeAndLog_buildTxn (a : action) (finalStatus : ActionStatus)
  (results : Payload) (message : string) (completedTime : Time) (attempt : nat)
  (parentOperation : option operation) (db : Database)
  : Result (list Op) * option operation :=
  let ops :=
    [mkOp actionsC (DocId (doc a)) assertNotComplete None
       (Some (DollarSet [SetStatus finalStatus; SetMessage message;
                         SetResults results; SetCompleted completedTime]))
       false;
     mkOp actionNotificationsC
       (docID (ensureActionMarker (action_Receiver a) +:+ action_Id a))
       AssertNil None None true] in
  match parentOperation with
  | Some p =>
      let '(p, err) :=
        if (0 <? attempt)%nat then operation_Refresh db p else (p, None) in
      match err with
      | Some e =>
          if negb (IsNotFound e) then (Err (Traced e), Some p)
          else (Ok (ops ++ [updateOperationOp p finalStatus completedTime]), Some p)
      | None => (Ok (ops ++ [updateOperationOp p finalStatus completedTime]), Some p)
      end
  | None => (Ok ops, None)
  end.

(** The part of [removeAndLog] after the parent operation has been
    read. *)
Definition removeAndLog_with (parentOperation : option operation) (a : action)
  (finalStatus : ActionStatus) (results : Payload) (message : string)
  (db : Database) : Result action * Database :=
  let completedTime := nowToTheSecond in
  match Run (removeAndLog_buildTxn a finalStatus results message completedTime)
          parentOperation db with
  | (Err err, db') => (Err (Traced err), db')
  | (Ok _, db') => (Model_Action db' (action_Id a), db')
  end.

Definition removeAndLog (a : action) (finalStatus : ActionStatus)
  (results : Payload) (message : string) (db : Database)
  : Result action * Database :=
  match st_Model with
  | Err err => (Err (Traced err), db)
  | Ok _ =>
      match Model_Operation db (Operation (doc a)) with
      | Err err =>
          if negb (IsNotFound err) then (Err (Traced err), db)
          else removeAndLog_with None a finalStatus results message db
      | Ok p => removeAndLog_with (Some p) a finalStatus results message db
      end
  end.

Definition Finish (a : action) (results : ActionResults) (db : Database)
  : Result action * Database :=
  removeAndLog a (arStatus results) (arResults results) (arMessage results) db.

(** *** [Log] *)

Definition Log_buildTxn (message : string) (attempt : nat) (a : action)
  (db : Database) : Result (list Op) * action :=
  let fetched :=
    if (0 <? attempt)%nat then
      match Model_Action db (action_Id a) with
      | Err err => Err (Traced err)
      | Ok anAction => Ok anAction
      end
    else Ok a in
  match fetched with
  | Err err => (Err err, a)
  | Ok a =>
      let s := action_Status a in
      if negb (bool_decide (s = ActionRunning))
      then (Err (Errorf_cannot_log (action_Id a) s), a)
      else
        (Ok [mkOp actionsC (DocId (doc a)) (AssertStatus ActionRunning) None
               (Some (DollarPushMessages (mkActionMessage message nowToTheSecond)))
               false],
         a)
  end.

(** [Log] returns an [error], [None] being [nil]. *)
Definition Log (a : action) (message : string) (db : Database)
  : option error * Database :=
  if (1000 <? length (Logs (doc a)))%nat then (None, db)
  else
    match st_Model with
    | Err err => (Some (Traced err), db)
    | Ok _ =>
        match Run (Log_buildTxn message) a db with
        | (Err err, db') => (Some (Traced err), db')
        | (Ok _, db') => (None, db')
        end
    end.

(** *** The id allocator *)

Definition IsNewActionIDSupported (ver : Number) : bool :=
  0 <=? Compare ver MinVersionSupportNewActionID.

Definition newActionDoc (operationID : string) (receiverTag : names_Tag)
  (actionName : string) (parameters : Payload) (modelAgentVersion : Number)
  : Result (actionDoc * actionNotificationDoc) :=
  let prefix := ensureActionMarker (Id receiverTag) in
  let allocated : Result string :=
    if bool_decide (Kind receiverTag = UnitTagKind)
       && IsNewActionIDSupported modelAgentVersion
    then
      match sequenceWithMin "task" 1 with
      | Err err => Err err
      | Ok id => Ok (Itoa id)
      end
    else
      match NewUUID with
      | Err err => Err err
      | Ok actionUUID => Ok (UUID_String actionUUID)
      end in
  match allocated with
  | Err err => Err err
  | Ok actionId =>
      Ok (mkActionDoc (docID actionId) modelUUID (Id receiverTag) actionName
            parameters nowToTheSecond 0 0 operationID ActionPending "" [] [],
          mkActionNotificationDoc (docID (prefix +:+ actionId)) modelUUID
            (Id receiverTag) actionId)
  end.

(** *** [FindActionTagsById] *)

Inductive Filter :=
| FilterIdRegex (pattern : string)
| FilterIdIs (matchValue : string).

Definition matchesFilter (f : Filter) (id : string) : bool :=
  match f with
  | FilterIdRegex pattern => regexMatch pattern id
  | FilterIdIs matchValue => bool_decide (id = matchValue)
  end.

(** [actions.Find(filter).Iter()]: the ids of the documents the filter
    selects. *)
Definition Find_ids (db : Database) (f : Filter) : list string :=
  (λ kd, kd.1) <$>
    map_to_list (filter (λ kd : string * actionDoc, matchesFilter f kd.1) (actions db)).

Definition FindActionTagsById_filter (agentVersion : Number) (idValue : string)
  : Filter :=
  let matchValue := docID idValue in
  let newIdsSupported := IsNewActionIDSupported agentVersion in
  let maybeOldId := ContainsAny idValue "-abcdef" in
  if negb newIdsSupported || maybeOldId
  then FilterIdRegex ("^" +:+ matchValue)
  else FilterIdIs matchValue.

(** The loop over the iterator. *)
Definition collectTags (ids : list string) : list ActionTag :=
  foldl (λ results id,
           let localID := localID id in
           if IsValidAction localID then results ++ [NewActionTag localID]
           else results)
        [] ids.

Definition FindActionTagsById (db : Database) (idValue : string)
  : Result (list ActionTag) :=
  match AgentVersion with
  | Err err => Err (Traced err)
  | Ok agentVersion =>
      Ok (collectTags (Find_ids db (FindActionTagsById_filter agentVersion idValue)))
  end.

(** *** [EnqueueAction] *)

(** Modelled from the spec: the liveness check of a receiver is consumed,
    not part of the file at hand: whether the receiver's document is
    there and still alive. *)
Definition isNotDead (db : Database) (collName id : string) : Result bool :=
  Ok (match entities db !! (collName, id) with
      | Some l => negb (bool_decide (l = Dead))
      | None => false
      end).

(** The builder of [EnqueueAction], given the outcome of the liveness
    check and of the lookup of the parent operation. *)
Definition EnqueueAction_build (ops : list Op) (attempt : nat)
  (live : Result bool) (parent : Result operation) : Result (list Op) :=
  match live with
  | Err err => Err err
  | Ok notDead =>
      if negb notDead then Err ErrDead
      else if negb (bool_decide (attempt = 0%nat)) then
        match parent with
        | Err err => Err (Traced err)
        | Ok _ => Err (Errorf_unexpected_attempt attempt)
        end
      else Ok ops
  end.

Definition EnqueueAction_buildTxn (receiverCollectionName receiverId : string)
  (operationID : string) (ops : list Op) (attempt : nat) (l : unit)
  (db : Database) : Result (list Op) * unit :=
  (EnqueueAction_build ops attempt
     (isNotDead db receiverCollectionName receiverId)
     (Model_Operation db operationID), l).

Definition EnqueueAction_ops (receiverCollectionName receiverId operationID : string)
  (d : actionDoc) (ndoc : actionNotificationDoc) : list Op :=
  [mkOp (entityC receiverCollectionName) receiverId notDeadDoc None None false;
   mkOp operationsC (docID operationID) DocExists None None false;
   mkOp actionsC (DocId d) DocMissing (Some (InsertAction d)) None false;
   mkOp actionNotificationsC (nDocId ndoc) DocMissing
     (Some (InsertNotification ndoc)) None false].

Definition EnqueueAction (operationID : string) (receiver : names_Tag)
  (actionName : string) (payload : Payload) (db : Database)
  : Result action * Database :=
  if bool_decide (String.length actionName = 0%nat)
  then (Err New_action_name_required, db)
  else
    match tagToCollectionAndId receiver with
    | Err err => (Err (Traced err), db)
    | Ok (receiverCollectionName, receiverId) =>
        match AgentVersion with
        | Err err => (Err (Traced err), db)
        | Ok agentVersion =>
            match newActionDoc operationID receiver actionName payload agentVersion with
            | Err err => (Err (Traced err), db)
            | Ok (d, ndoc) =>
                let ops :=
                  EnqueueAction_ops receiverCollectionName receiverId operationID
                    d ndoc in
                match Run (EnqueueAction_buildTxn receiverCollectionName receiverId
                             operationID ops) tt db with
                | (Ok _, db') => (Ok (newAction d), db')
                | (Err err, db') => (Err err, db')
                end
            end
        end
    end.

End Action.

(** ** The remaining accessors and queries *)

Section Queries.
Context `{Backend}.

Definition action_Name (a : action) : string := Name (doc a).
Definition action_Parameters (a : action) : Payload := Parameters (doc a).
Definition action_Enqueued (a : action) : Time := Enqueued (doc a).
Definition action_Started (a : action) : Time := Started (doc a).
Definition action_Completed (a : action) : Time := Completed (doc a).

(** [Results] returns the results and the message. *)
Definition action_Results (a : action) : Payload * string :=
  (Results (doc a), Message (doc a)).

Definition action_ActionTag (a : action) : ActionTag := NewActionTag (action_Id a).

(** [time.Time.UTC]: the same instant in another location; a [Time] here
    is the instant. *)
Definition UTC (t : Time) : Time := t.

(** [Messages]: a fresh slice with one entry per stored message. *)
Definition action_Messages (a : action) : list ActionMessage :=
  (λ m, mkActionMessage (MessageValue m) (UTC (TimestampValue m))) <$> Logs (doc a).

(** The selectors the queries of this file pass to [Find]: a [bson.D] is
    a list of conditions that must all hold. *)
#[local] Set Warnings "-register-all".
Inductive Query :=
| QReceiver (id : string)
| QName (name : string)
| QStatus (s : ActionStatus)
| QOr (alternatives : list (list Query)).

Fixpoint matchesQuery (q : Query) (d : actionDoc) : bool :=
  match q with
  | QReceiver id => bool_decide (Receiver d = id)
  | QName name => bool_decide (Name d = name)
  | QStatus s => bool_decide (Status d = s)
  | QOr alternatives =>
      existsb (λ alternative, forallb (λ q', matchesQuery q' d) alternative)
        alternatives
  end.

Definition matchesSelector (sel : list Query) (d : actionDoc) : bool :=
  forallb (λ q, matchesQuery q d) sel.

(** [actions.Find(sel)]: the documents the selector selects. *)
Definition Find_docs (db : Database) (sel : list Query) : list actionDoc :=
  (λ kd, kd.2) <$>
    map_to_list (filter (λ kd : string * actionDoc, matchesSelector sel kd.2)
                   (actions db)).

(** The loop [for iter.Next(&doc) { actions = append(actions, newAction(st, doc)) }]. *)
Definition collectActions (docs : list actionDoc) : list action :=
  foldl (λ results d, results ++ [newAction d]) [] docs.

Definition AllActions (db : Database) : Result (list action) :=
  Ok (collectActions (Find_docs db [])).

Definition ActionByTag (db : Database) (tag : ActionTag) : Result action :=
  Model_Action db (ActionTag_Id tag).

(** The queries below return the actions found and the error of closing
    the iterator, [None] being [nil]. *)
Definition FindActionsByName (db : Database) (name : string)
  : list action * option error :=
  (collectActions (Find_docs db [QName name]), None).

Definition matchingActionsByReceiverId (db : Database) (id : string)
  : list action * option error :=
  (collectActions (Find_docs db [QReceiver id]), None).

(** [ar] is the tag of the action receiver. *)
Definition matchingActions (db : Database) (ar : names_Tag)
  : list action * option error :=
  matchingActionsByReceiverId db (Id ar).

Definition matchingActionsByReceiverAndStatus (db : Database) (tag : names_Tag)
  (statusCondition : list Query) : list action * option error :=
  let sel := [QReceiver (Id tag)] ++ statusCondition in
  (collectActions (Find_docs db sel), None).

Definition matchingActionsPending (db : Database) (ar : names_Tag)
  : list action * option error :=
  let completed := [QStatus ActionPending] in
  matchingActionsByReceiverAndStatus db ar completed.

Definition matchingActionsRunning (db : Database) (ar : names_Tag)
  : list action * option error :=
  let completed := [QStatus ActionRunning] in
  matchingActionsByReceiverAndStatus db ar completed.

Definition matchingActionsCompleted (db : Database) (ar : names_Tag)
  : list action * option error :=
  let completed :=
    [QOr [[QStatus ActionCompleted]; [QStatus ActionCancelled];
          [QStatus ActionFailed]]] in
  matchingActionsByReceiverAndStatus db ar completed.

(** *** Sequences of calls *)

Inductive Call :=
| CallEnqueueAction (operationID : string) (receiver : names_Tag)
    (actionName : string) (payload : Payload)
| CallBegin (a : action)
| CallFinish (a : action) (results : ActionResults)
| CallLog (a : action) (message : string).

(** The database a call leaves behind, whatever it returns. *)
Definition runCall (c : Call) (db : Database) : Database :=
  match c with
  | CallEnqueueAction operationID receiver actionName payload =>
      (EnqueueAction operationID receiver actionName payload db).2
  | CallBegin a => (Begin a db).2
  | CallFinish a results => (Finish a results db).2
  | CallLog a message => (Log a message db).2
  end.

Definition runCalls (calls : list Call) (db : Database) : Database :=
  foldl (λ db c, runCall c db) db calls.

(** A call that is not a Finish with a status that is not terminal. *)
Definition finishesTerminal (c : Call) : Prop :=
  match c with
  | CallFinish _ results => isTerminal (arStatus results) = true
  | _ => True
  end.

(** Logging a list of messages through one handle. *)
Definition logAll (a : action) (messages : list string) (db : Database) : Database :=
  foldl (λ db message, (Log a message db).2) db messages.

End Queries.

(** The place of a status in the life of an action. *)
Definition statusRank (s : ActionStatus) : nat :=
  match s with
  | ActionPending => 0
  | ActionRunning => 1
  | ActionFailed | ActionCompleted | ActionCancelled => 2
  end.

(** What never changes in an action document. *)
Definition sameIdentity (d d' : actionDoc) : Prop :=
  DocId d' = DocId d ∧ ModelUUID d' = ModelUUID d ∧ Receiver d' = Receiver d
  ∧ Name d' = Name d ∧ Parameters d' = Parameters d ∧ Enqueued d' = Enqueued d
  ∧ Operation d' = Operation d.

(** ** Notions the properties are stated with *)

(** The number of statuses that are neither pending nor running. *)
Definition numCompleteOf (tasks : list ActionStatus) : Z :=
  Z.of_nat (length (List.filter countsAsComplete tasks)).

Section Notions.
Context `{Backend}.

(** The two operations every finishing transaction starts with: the
    guarded update of the action and the removal of its notification. *)
Definition finishActionOp (a : action) (finalStatus : ActionStatus)
  (results : Payload) (message : string) (completedTime : Time) : Op :=
  mkOp actionsC (DocId (doc a)) assertNotComplete None
    (Some (DollarSet [SetStatus finalStatus; SetMessage message;
                      SetResults results; SetCompleted completedTime]))
    false.

Definition notificationId (a : action) : string :=
  docID (ensureActionMarker (action_Receiver a) +:+ action_Id a).

Definition removeNotificationOp (a : action) : Op :=
  mkOp actionNotificationsC (notificationId a) AssertNil None None true.

(** The operation that promotes the parent to a final status. *)
Definition promoteOperationOp (p : operation) (s : ActionStatus)
  (completedTime : Time) (n : Z) : Op :=
  mkOp operationsC (docID (operation_Id p)) assertNotComplete None
    (Some (DollarSet [SetStatus s; SetCompleted completedTime;
                      SetCompleteTaskCount n]))
    false.

(** The operation that only advances the counter of the parent. *)
Definition advanceCounterOp (p : operation) (n : Z) : Op :=
  mkOp operationsC (docID (operation_Id p))
    (AssertCompleteTaskCount (oCompleteTaskCount (odoc p))) None
    (Some (DollarSet [SetCompleteTaskCount n]))
    false.

(** The two operations of a beginning transaction. *)
Definition beginActionOp (a : action) (startedTime : Time) : Op :=
  mkOp actionsC (DocId (doc a)) (AssertStatus ActionPending) None
    (Some (DollarSet [SetStatus ActionRunning; SetStarted startedTime])) false.

Definition beginOperationOp (p : operation) (startedTime : Time) : Op :=
  mkOp operationsC (docID (operation_Id p)) (AssertStatus ActionPending) None
    (Some (DollarSet [SetStatus ActionRunning; SetStarted startedTime])) false.

(** The operation of a logging transaction. *)
Definition logOp (a : action) (message : string) : Op :=
  mkOp actionsC (DocId (doc a)) (AssertStatus ActionRunning) None
    (Some (DollarPushMessages (mkActionMessage message nowToTheSecond))) false.

(** The notification of an action is there exactly when the action is
    stored with a status that is not terminal. *)
Definition notificationTracks (db : Database) (a : action) : Prop :=
  is_Some (actionNotifications db !! notificationId a)
  ↔ ∃ d, actions db !! DocId (doc a) = Some d ∧ isTerminal (Status d) = false.

End Notions.

(** Two databases with the same notifications and in which the same
    actions are terminal. *)
Definition sameFinality (db db' : Database) : Prop :=
  actionNotifications db' = actionNotifications db
  ∧ ∀ k, (λ d, isTerminal (Status d)) <$> actions db' !! k
         = (λ d, isTerminal (Status d)) <$> actions db !! k.

(** An action document once begun, and once finished. *)
Definition beganAction (d : actionDoc) (t : Time) : actionDoc :=
  mkActionDoc (DocId d) (ModelUUID d) (Receiver d) (Name d) (Parameters d)
    (Enqueued d) t (Completed d) (Operation d) ActionRunning (Message d)
    (Results d) (Logs d).

Definition finishedAction (d : actionDoc) (s : ActionStatus) (message : string)
  (results : Payload) (t : Time) : actionDoc :=
  mkActionDoc (DocId d) (ModelUUID d) (Receiver d) (Name d) (Parameters d)
    (Enqueued d) (Started d) t (Operation d) s message results (Logs d).

(** An operation document once its first action has begun. *)
Definition beganOperation (d : operationDoc) (t : Time) : operationDoc :=
  mkOperationDoc (oDocId d) ActionRunning t (oCompleted d) (oCompleteTaskCount d).

(** The operations collection after a Begin of a child of [id]. *)
Definition operationsAfterBegin (docId : string) (t : Time)
  (ops : gmap string operationDoc) : gmap string operationDoc :=
  match ops !! docId with
  | Some d =>
      if bool_decide (oStatus d = ActionPending)
      then <[docId := beganOperation d t]> ops
      else ops
  | None => ops
  end.

(** ** A concrete backend and database *)

(** A version order for the examples: by major, minor, patch and build. *)
Definition exampleCompare (v w : Number) : Z :=
  if bool_decide (Major v ≠ Major w) then (if Major v <? Major w then -1 else 1)
  else if bool_decide (Minor v ≠ Minor w) then (if Minor v <? Minor w then -1 else 1)
  else if bool_decide (Patch v ≠ Patch w) then (if Patch v <? Patch w then -1 else 1)
  else if bool_decide (Build v ≠ Build w) then (if Build v <? Build w then -1 else 1)
  else 0.

Definition exampleLocalID (s : string) : string :=
  match s with
  | String "m"%char (String ":"%char rest) => rest
  | _ => s
  end.

Definition exampleBackend : Backend := {|
  modelUUID := "m";
  docID := λ s, "m:" +:+ s;
  localID := exampleLocalID;
  nowToTheSecond := 1600000000;
  st_Model := Ok tt;
  AgentVersion := Ok (mkNumber 2 8 "" 0 0);
  Compare := exampleCompare;
  sequenceWithMin := λ _ minimum, Ok (minimum + 41);
  NewUUID := Ok (mkUUID [1; 2; 3]);
  UUID_String := λ _, "0a1b2c3d-0000-4000-8000-000000000001";
  tagToCollectionAndId := λ t, Ok ("units", Id t);
  IsValidAction := λ _, true;
  regexMatch := λ pattern id,
    match pattern with
    | String "^"%char p => String.prefix p id
    | _ => false
    end;
  ensureActionMarker := λ s, s +:+ "_a_";
  nrRetries := 3
|}.

Definition exampleAction (id operationID : string) (s : ActionStatus)
  (logs : list ActionMessage) : actionDoc :=
  mkActionDoc ("m:" +:+ id) "m" "u/0" "restart" [] 1500000000 0 0 operationID s
    "" [] logs.

Definition exampleOperation (id : string) (s : ActionStatus) (n : Z) : operationDoc :=
  mkOperationDoc ("m:" +:+ id) s 0 0 n.

(** Operation 7 runs two tasks, of which task 1 has failed and task 2 is
    running; operation 8 is pending with its one task 4; action 3 has no
    parent operation; action 9 is running with a log of 1000 entries. *)
Definition exampleDb : Database :=
  mkDatabase
    (<["m:1" := exampleAction "1" "7" ActionFailed []]>
     (<["m:2" := exampleAction "2" "7" ActionRunning []]>
      (<["m:3" := exampleAction "3" "" ActionPending []]>
       (<["m:4" := exampleAction "4" "8" ActionPending []]>
        (<["m:9" := exampleAction "9" "" ActionRunning
                      (replicate 1000 (mkActionMessage "tick" 1550000000))]> ∅)))))
    (<["m:u/0_a_2" := mkActionNotificationDoc "m:u/0_a_2" "m" "u/0" "2"]>
     (<["m:u/0_a_3" := mkActionNotificationDoc "m:u/0_a_3" "m" "u/0" "3"]>
      (<["m:u/0_a_4" := mkActionNotificationDoc "m:u/0_a_4" "m" "u/0" "4"]>
       (<["m:u/0_a_9" := mkActionNotificationDoc "m:u/0_a_9" "m" "u/0" "9"]> ∅))))
    (<["m:7" := exampleOperation "7" ActionRunning 1]>
     (<["m:8" := exampleOperation "8" ActionPending 0]> ∅))
    (<[("units", "u/0") := Alive]> ∅).

Definition exampleHandle (id : string) : action :=
  match actions exampleDb !! ("m:" +:+ id) with
  | Some d => newAction d
  | None => newAction (exampleAction id "" ActionPending [])
  end.

Definition exampleFinish : Result action * Database :=
  @Finish exampleBackend (exampleHandle "2")
    (mkActionResults ActionCompleted [("outcome", "ok")] "done") exampleDb.

Definition exampleEnqueue : Result action * Database :=
  @EnqueueAction exampleBackend "7" (mkTag "unit" "u/0") "restart" [] exampleDb.

(** ** Properties *)

(** *** The counting loop and the precedence scan *)

Lemma countsAsComplete_isTerminal s : countsAsComplete s = isTerminal s.
Proof. by destruct s. Qed.

Lemma countTasks_acc (tasks : list ActionStatus) (seen : gset ActionStatus) (n : Z) :
  foldl (λ (acc : gset ActionStatus * Z) status,
           ({[status]} ∪ acc.1,
            if countsAsComplete status then acc.2 + 1 else acc.2))
        (seen, n) tasks
  = (list_to_set tasks ∪ seen, n + numCompleteOf tasks).
Proof.
  revert seen n. induction tasks as [|s tasks IH]; intros seen n; simpl.
  - unfold numCompleteOf. simpl. f_equal; [set_solver | lia].
  - rewrite IH. unfold numCompleteOf. simpl.
    destruct (countsAsComplete s); simpl; f_equal; try set_solver; lia.
Qed.

Lemma countTasks_eq finalStatus tasks :
  countTasks finalStatus tasks
  = (list_to_set tasks ∪ {[finalStatus]}, numCompleteOf tasks).
Proof. unfold countTasks. rewrite countTasks_acc. f_equal. Qed.

Lemma firstContained_find order (statusStats : gset ActionStatus) dflt :
  firstContained order statusStats dflt
  = default dflt (List.find (λ s, bool_decide (s ∈ statusStats)) order).
Proof.
  induction order as [|s order IH]; simpl; [done|].
  by destruct (bool_decide (s ∈ statusStats)).
Qed.

Lemma numCompleteOf_app l1 l2 :
  numCompleteOf (l1 ++ l2) = numCompleteOf l1 + numCompleteOf l2.
Proof.
  unfold numCompleteOf. rewrite List.filter_app, length_app. lia.
Qed.

Lemma numCompleteOf_all_terminal l :
  Forall (λ s, isTerminal s = true) l → numCompleteOf l = Z.of_nat (length l).
Proof.
  unfold numCompleteOf. induction 1 as [|s l Hs _ IH]; simpl; [done|].
  rewrite countsAsComplete_isTerminal, Hs. simpl. lia.
Qed.

Lemma numCompleteOf_bound l : 0 ≤ numCompleteOf l ≤ Z.of_nat (length l).
Proof.
  unfold numCompleteOf. split; [lia|].
  apply inj_le, List.filter_length_le.
Qed.

Lemma find_ext_in {A} (f g : A → bool) (l : list A) :
  (∀ x, x ∈ l → f x = g x) → List.find f l = List.find g l.
Proof.
  induction l as [|x l IH]; intros Hfg; simpl; [done|].
  rewrite <- (Hfg x) by set_solver.
  destruct (f x); [done|]. apply IH. intros y Hy. apply Hfg. set_solver.
Qed.

Lemma find_terminal_some (statusStats : list ActionStatus) finalStatus :
  isTerminal finalStatus = true →
  finalStatus ∈ statusStats →
  is_Some (List.find (λ s, bool_decide (s ∈ statusStats)) statusCompletedOrder).
Proof.
  intros Hterm Hin. unfold statusCompletedOrder. simpl.
  repeat case_bool_decide; eauto.
  destruct finalStatus; try discriminate; contradiction.
Qed.

(** *** Transactions of the shapes the transitions build *)

Lemma applyOps_three (db db' : Database) ida asA ua idn ido asO uo :
  applyOps
    [mkOp actionsC ida asA None (Some ua) false;
     mkOp actionNotificationsC idn AssertNil None None true;
     mkOp operationsC ido asO None (Some uo) false] db = Some db' →
  checkAssertion asA (viewDoc db actionsC ida) = true
  ∧ checkAssertion asO (viewDoc db operationsC ido) = true
  ∧ db' = mkDatabase (alter (updateAction ua) ida (actions db))
            (delete idn (actionNotifications db))
            (alter (updateOperation uo) ido (operations db))
            (entities db).
Proof.
  unfold applyOps, checkOp. cbn [forallb opAssert opC opId].
  destruct (checkAssertion asA _); [|done].
  cbn [checkAssertion andb].
  destruct (checkAssertion asO _); [|done].
  intros [= <-]. done.
Qed.

Lemma applyOps_two (db db' : Database) ida asA ua idn :
  applyOps
    [mkOp actionsC ida asA None (Some ua) false;
     mkOp actionNotificationsC idn AssertNil None None true] db = Some db' →
  checkAssertion asA (viewDoc db actionsC ida) = true
  ∧ db' = mkDatabase (alter (updateAction ua) ida (actions db))
            (delete idn (actionNotifications db))
            (operations db) (entities db).
Proof.
  unfold applyOps, checkOp. cbn [forallb opAssert opC opId].
  destruct (checkAssertion asA _); [|done].
  intros [= <-]. done.
Qed.

Lemma check_status_nin_operation db id l :
  checkAssertion (AssertStatusNin l) (viewDoc db operationsC id) = true →
  ∃ d, operations db !! id = Some d ∧ oStatus d ∉ l.
Proof.
  simpl. destruct (operations db !! id) as [d|]; simpl; [|done].
  intros Hc. exists d. split; [done|].
  apply negb_true_iff, bool_decide_eq_false in Hc. done.
Qed.

Lemma check_status_nin_action db id l :
  checkAssertion (AssertStatusNin l) (viewDoc db actionsC id) = true →
  ∃ d, actions db !! id = Some d ∧ Status d ∉ l.
Proof.
  simpl. destruct (actions db !! id) as [d|]; simpl; [|done].
  intros Hc. exists d. split; [done|].
  apply negb_true_iff, bool_decide_eq_false in Hc. done.
Qed.

(** *** The tasks of an operation when one action document changes *)

Lemma numCompleteOf_Permutation l l' :
  l ≡ₚ l' → numCompleteOf l = numCompleteOf l'.
Proof.
  unfold numCompleteOf. induction 1 as [|x l l' _ IH|x y l|l l' l'' _ IH1 _ IH2];
    cbn [List.filter]; [done| | |lia].
  - destruct (countsAsComplete x); cbn [length]; lia.
  - destruct (countsAsComplete x), (countsAsComplete y); done.
Qed.

Lemma tasksOf_alter_child (db db' : Database) (f : actionDoc → actionDoc)
  (k : string) (d : actionDoc) (id : string) :
  actions db !! k = Some d →
  Operation d = id →
  Operation (f d) = id →
  actions db' = alter f k (actions db) →
  ∃ rest, tasksOf db id ≡ₚ Status d :: rest
          ∧ tasksOf db' id ≡ₚ Status (f d) :: rest
          ∧ ∀ s, s ∈ rest →
                 ∃ k' d', k' ≠ k ∧ actions db !! k' = Some d'
                          ∧ Operation d' = id ∧ Status d' = s.
Proof.
  intros Hk Hd Hfd Hdb'.
  set (P := λ kd : string * actionDoc, Operation kd.2 = id).
  exists ((λ kd, Status kd.2) <$> map_to_list (filter P (delete k (actions db)))).
  unfold tasksOf. fold P. split; [|split].
  - rewrite map_filter_delete.
    rewrite <- (map_to_list_delete (filter P (actions db)) k d).
    + done.
    + by apply map_lookup_filter_Some_2.
  - rewrite Hdb', (alter_alt_Some f _ k d Hk), <- insert_delete_eq.
    rewrite map_filter_insert_True by done.
    rewrite map_to_list_insert; [done|].
    rewrite map_filter_delete. apply lookup_delete_eq.
  - intros s Hs. apply list_elem_of_fmap in Hs as ([k' d'] & -> & Hin).
    apply elem_of_map_to_list, map_lookup_filter_Some in Hin as [Hin HP].
    apply lookup_delete_Some in Hin as [Hne Hin]. by exists k', d'.
Qed.

Lemma tasksOf_same_actions (db db' : Database) (id : string) :
  actions db' = actions db → tasksOf db' id = tasksOf db id.
Proof. unfold tasksOf. by intros ->. Qed.

Lemma tasksOf_finish_child (db db' : Database) (f : actionDoc → actionDoc)
  (k : string) (d : actionDoc) (id : string) :
  actions db !! k = Some d →
  Operation d = id →
  Operation (f d) = id →
  isTerminal (Status d) = false →
  isTerminal (Status (f d)) = true →
  actions db' = alter f k (actions db) →
  numCompleteOf (tasksOf db' id) = numCompleteOf (tasksOf db id) + 1
  ∧ length (tasksOf db' id) = length (tasksOf db id)
  ∧ numCompleteOf (tasksOf db id) < Z.of_nat (length (tasksOf db id)).
Proof.
  intros Hk Hd Hfd Hbefore Hafter Hdb'.
  destruct (tasksOf_alter_child db db' f k d id) as (rest & H1 & H2 & _);
    try done.
  rewrite (numCompleteOf_Permutation _ _ H1), (numCompleteOf_Permutation _ _ H2).
  rewrite H1, H2. unfold numCompleteOf. cbn [List.filter length].
  rewrite !countsAsComplete_isTerminal, Hbefore, Hafter. cbn [length].
  pose proof (List.filter_length_le countsAsComplete rest). lia.
Qed.

(** *** The runner on a builder that keeps returning the same operations *)

Lemma runAttempts_stable {L : Type} (build : nat → L → Database → Result (list Op) * L)
  (l : L) (db : Database) (ops : list Op) (budget attempt : nat) :
  (∀ k, build k l db = (Ok ops, l)) →
  runAttempts budget attempt build l db
  = match budget, applyOps ops db with
    | S _, Some db' => (Ok tt, db')
    | _, _ => (Err ErrExcessiveContention, db)
    end.
Proof.
  intros Hbuild. revert attempt.
  induction budget as [|budget IH]; intros attempt; cbn [runAttempts]; [done|].
  rewrite Hbuild. destruct (applyOps ops db) as [db'|] eqn:Happ; [done|].
  rewrite IH. by destruct budget.
Qed.

Lemma runAttempts_error_keeps_db {L : Type}
  (build : nat → L → Database → Result (list Op) * L)
  (l : L) (db db' : Database) (budget attempt : nat) (e : error) :
  runAttempts budget attempt build l db = (Err e, db') → db' = db.
Proof.
  revert attempt l. induction budget as [|budget IH]; intros attempt l;
    cbn [runAttempts]; [by intros [= _ <-]|].
  destruct (build attempt l db) as [[ops|e'] l']; [|by intros [= _ <-]].
  destruct (applyOps ops db); [done|]. apply IH.
Qed.

Section Properties.
Context `{Backend}.

Lemma updateOperationOp_last (p : operation) finalStatus completedTime :
  numCompleteOf (taskStatus p) = Z.of_nat (length (taskStatus p)) - 1 →
  updateOperationOp p finalStatus completedTime
  = promoteOperationOp p
      (firstContained statusCompletedOrder
         (list_to_set (taskStatus p) ∪ {[finalStatus]}) finalStatus)
      completedTime (numCompleteOf (taskStatus p) + 1).
Proof.
  intros Hn. unfold updateOperationOp. rewrite countTasks_eq.
  by rewrite (proj2 (Z.eqb_eq _ _) Hn).
Qed.

Lemma updateOperationOp_not_last (p : operation) finalStatus completedTime :
  numCompleteOf (taskStatus p) ≠ Z.of_nat (length (taskStatus p)) - 1 →
  updateOperationOp p finalStatus completedTime
  = advanceCounterOp p (numCompleteOf (taskStatus p) + 1).
Proof.
  intros Hn. unfold updateOperationOp. rewrite countTasks_eq.
  by rewrite (proj2 (Z.eqb_neq _ _) Hn).
Qed.

Lemma numCompleteOf_one_outstanding before cur after :
  isTerminal cur = false →
  Forall (λ s, isTerminal s = true) (before ++ after) →
  numCompleteOf (before ++ cur :: after)
  = Z.of_nat (length (before ++ cur :: after)) - 1.
Proof.
  intros Hcur Hall. apply Forall_app in Hall as [Hb Ha].
  rewrite numCompleteOf_app. change (cur :: after) with ([cur] ++ after).
  rewrite numCompleteOf_app.
  rewrite (numCompleteOf_all_terminal before), (numCompleteOf_all_terminal after)
    by done.
  unfold numCompleteOf. cbn [List.filter].
  rewrite countsAsComplete_isTerminal, Hcur.
  rewrite !length_app. cbn [length]. lia.
Qed.

Lemma firstContained_one_outstanding before cur after finalStatus :
  isTerminal cur = false →
  firstContained statusCompletedOrder
    (list_to_set (before ++ cur :: after) ∪ {[finalStatus]}) finalStatus
  = default finalStatus
      (List.find (λ s, bool_decide (s ∈ finalStatus :: before ++ after))
         statusCompletedOrder).
Proof.
  intros Hcur. rewrite firstContained_find. f_equal.
  apply find_ext_in. intros s Hs.
  apply bool_decide_ext.
  assert (s ≠ cur).
  { intros ->. unfold statusCompletedOrder in Hs.
    destruct cur; try discriminate; set_solver. }
  set_solver.
Qed.

Lemma removeAndLog_buildTxn_first a finalStatus results message t p db :
  removeAndLog_buildTxn a finalStatus results message t 0 (Some p) db
  = (Ok [finishActionOp a finalStatus results message t;
         removeNotificationOp a;
         updateOperationOp p finalStatus t], Some p).
Proof. done. Qed.

Lemma removeAndLog_buildTxn_retry a finalStatus results message t n p0 p db :
  Model_Operation db (operation_Id p0) = Ok p →
  removeAndLog_buildTxn a finalStatus results message t (S n) (Some p0) db
  = (Ok [finishActionOp a finalStatus results message t;
         removeNotificationOp a;
         updateOperationOp p finalStatus t], Some p).
Proof.
  intros Hp. unfold removeAndLog_buildTxn, operation_Refresh.
  cbn [Nat.ltb Nat.leb]. by rewrite Hp.
Qed.

Lemma removeAndLog_buildTxn_orphan a finalStatus results message t n db :
  removeAndLog_buildTxn a finalStatus results message t n None db
  = (Ok [finishActionOp a finalStatus results message t;
         removeNotificationOp a], None).
Proof. done. Qed.

Lemma promote_effect (db db' : Database) a finalStatus results message t p s n :
  applyOps [finishActionOp a finalStatus results message t;
            removeNotificationOp a;
            promoteOperationOp p s t n] db = Some db' →
  ∃ d, operations db !! docID (operation_Id p) = Some d
       ∧ isTerminal (oStatus d) = false
       ∧ operations db' !! docID (operation_Id p)
         = Some (mkOperationDoc (oDocId d) s (oStarted d) t n).
Proof.
  intros Happ. apply applyOps_three in Happ as (_ & Hop & ->).
  apply check_status_nin_operation in Hop as (d & Hd & Hnin).
  exists d. split; [done|]. split.
  - unfold isTerminal. apply bool_decide_eq_false. set_solver.
  - cbn [operations]. rewrite lookup_alter_eq, Hd. done.
Qed.

(** The transaction built from a snapshot in which one task, the
    finishing one, is outstanding. *)
Lemma promote_on_last_child
  (p : operation) (finalStatus cur : ActionStatus)
  (before after : list ActionStatus) (completedTime : Time) :
  isTerminal finalStatus = true →
  taskStatus p = before ++ cur :: after →
  isTerminal cur = false →
  Forall (λ s, isTerminal s = true) (before ++ after) →
  ∃ s,
    List.find (λ s, bool_decide (s ∈ finalStatus :: before ++ after))
      statusCompletedOrder = Some s
    ∧ updateOperationOp p finalStatus completedTime
      = promoteOperationOp p s completedTime (Z.of_nat (length (taskStatus p)))
    ∧ (∀ a results message db,
         removeAndLog_buildTxn a finalStatus results message completedTime 0
           (Some p) db
         = (Ok [finishActionOp a finalStatus results message completedTime;
                removeNotificationOp a;
                promoteOperationOp p s completedTime
                  (Z.of_nat (length (taskStatus p)))], Some p))
    ∧ (∀ a results message db db',
         applyOps [finishActionOp a finalStatus results message completedTime;
                   removeNotificationOp a;
                   promoteOperationOp p s completedTime
                     (Z.of_nat (length (taskStatus p)))] db = Some db' →
         oStatus <$> operations db' !! docID (operation_Id p) = Some s)
    ∧ (ActionFailed ∈ finalStatus :: before ++ after → s = ActionFailed).
Proof.
  intros Hfinal Htasks Hcur Hothers.
  destruct (find_terminal_some (finalStatus :: before ++ after) finalStatus)
    as [s Hs]; [done | set_solver |].
  assert (Hop : updateOperationOp p finalStatus completedTime
                = promoteOperationOp p s completedTime
                    (Z.of_nat (length (taskStatus p)))).
  { rewrite updateOperationOp_last; rewrite Htasks;
      rewrite numCompleteOf_one_outstanding by done; [|done].
    rewrite firstContained_one_outstanding, Hs by done. simpl.
    f_equal. lia. }
  exists s. repeat split.
  - done.
  - done.
  - intros a results message db.
    by rewrite removeAndLog_buildTxn_first, Hop.
  - intros a results message db db' Happ.
    apply promote_effect in Happ as (d & _ & _ & ->). done.
  - intros Hfailed. unfold statusCompletedOrder in Hs. simpl in Hs.
    rewrite bool_decide_eq_true_2 in Hs by done. congruence.
Qed.

(** *** [removeAndLog] on a database that does not change under it *)

Lemma Model_Operation_fresh db id od :
  localID (docID id) = id →
  operations db !! docID id = Some od →
  oDocId od = docID id →
  Model_Operation db id = Ok (mkOperation od (tasksOf db id))
  ∧ operation_Id (mkOperation od (tasksOf db id)) = id.
Proof.
  intros Hid Hod Hdoc. unfold Model_Operation, operation_Id. rewrite Hod.
  cbn [odoc]. by rewrite Hdoc, Hid.
Qed.

Lemma removeAndLog_buildTxn_fresh a finalStatus results message t p db k :
  Model_Operation db (operation_Id p) = Ok p →
  removeAndLog_buildTxn a finalStatus results message t k (Some p) db
  = (Ok [finishActionOp a finalStatus results message t;
         removeNotificationOp a;
         updateOperationOp p finalStatus t], Some p).
Proof.
  intros Hp. destruct k as [|k].
  - apply removeAndLog_buildTxn_first.
  - by apply removeAndLog_buildTxn_retry.
Qed.

Lemma removeAndLog_with_success a finalStatus results message p db r db' :
  Model_Operation db (operation_Id p) = Ok p →
  removeAndLog_with (Some p) a finalStatus results message db = (Ok r, db') →
  applyOps [finishActionOp a finalStatus results message nowToTheSecond;
            removeNotificationOp a;
            updateOperationOp p finalStatus nowToTheSecond] db = Some db'.
Proof.
  intros Hp. unfold removeAndLog_with, Run.
  rewrite (runAttempts_stable _ _ _
             [finishActionOp a finalStatus results message nowToTheSecond;
              removeNotificationOp a;
              updateOperationOp p finalStatus nowToTheSecond])
    by (intros k; by apply removeAndLog_buildTxn_fresh).
  destruct nrRetries; [done|].
  destruct (applyOps _ db) as [db1|]; [|done].
  by intros [= _ <-].
Qed.

Lemma removeAndLog_success a finalStatus results message db r db' od :
  localID (docID (Operation (doc a))) = Operation (doc a) →
  operations db !! docID (Operation (doc a)) = Some od →
  oDocId od = docID (Operation (doc a)) →
  removeAndLog a finalStatus results message db = (Ok r, db') →
  applyOps [finishActionOp a finalStatus results message nowToTheSecond;
            removeNotificationOp a;
            updateOperationOp (mkOperation od (tasksOf db (Operation (doc a))))
              finalStatus nowToTheSecond] db = Some db'.
Proof.
  intros Hid Hod Hdoc.
  destruct (Model_Operation_fresh db _ od Hid Hod Hdoc) as [Hp Hpid].
  unfold removeAndLog. destruct st_Model; [|done]. rewrite Hp.
  apply removeAndLog_with_success. by rewrite Hpid.
Qed.

Lemma advance_effect (db db' : Database) a finalStatus results message t p n :
  applyOps [finishActionOp a finalStatus results message t;
            removeNotificationOp a;
            advanceCounterOp p n] db = Some db' →
  ∃ d, operations db !! docID (operation_Id p) = Some d
       ∧ oCompleteTaskCount d = oCompleteTaskCount (odoc p)
       ∧ operations db' !! docID (operation_Id p)
         = Some (mkOperationDoc (oDocId d) (oStatus d) (oStarted d) (oCompleted d) n).
Proof.
  intros Happ. apply applyOps_three in Happ as (_ & Hop & ->).
  simpl in Hop. destruct (operations db !! docID (operation_Id p)) as [d|] eqn:Hd;
    [|done].
  simpl in Hop. apply bool_decide_eq_true in Hop. injection Hop as Hop.
  exists d. split; [done|]. split; [done|].
  cbn [operations]. by rewrite lookup_alter_eq, Hd.
Qed.

Lemma finish_action_effect (db db' : Database) a finalStatus results message t
  ido asO uo :
  applyOps [finishActionOp a finalStatus results message t;
            removeNotificationOp a;
            mkOp operationsC ido asO None (Some uo) false] db = Some db' →
  ∃ d, actions db !! DocId (doc a) = Some d
       ∧ isTerminal (Status d) = false
       ∧ actions db'
         = alter (updateAction (DollarSet [SetStatus finalStatus; SetMessage message;
                                           SetResults results; SetCompleted t]))
             (DocId (doc a)) (actions db)
       ∧ actionNotifications db' = delete (notificationId a) (actionNotifications db).
Proof.
  intros Happ. apply applyOps_three in Happ as (Ha & _ & ->).
  apply check_status_nin_action in Ha as (d & Hd & Hnin).
  exists d. split; [done|]. split; [|done].
  unfold isTerminal. apply bool_decide_eq_false. set_solver.
Qed.

Lemma firstContained_terminal (statusStats : gset ActionStatus) dflt :
  isTerminal dflt = true →
  isTerminal (firstContained statusCompletedOrder statusStats dflt) = true.
Proof.
  intros Hd. unfold statusCompletedOrder. cbn [firstContained].
  repeat case_bool_decide; done.
Qed.

Lemma finished_doc_fields finalStatus message results t d :
  Operation (updateAction (DollarSet [SetStatus finalStatus; SetMessage message;
                                      SetResults results; SetCompleted t]) d)
  = Operation d
  ∧ Status (updateAction (DollarSet [SetStatus finalStatus; SetMessage message;
                                     SetResults results; SetCompleted t]) d)
    = finalStatus.
Proof. done. Qed.

Lemma finish_tasks (db db' : Database) a finalStatus results message t
  ido asO uo da id :
  applyOps [finishActionOp a finalStatus results message t;
            removeNotificationOp a;
            mkOp operationsC ido asO None (Some uo) false] db = Some db' →
  actions db !! DocId (doc a) = Some da →
  Operation da = id →
  isTerminal finalStatus = true →
  numCompleteOf (tasksOf db' id) = numCompleteOf (tasksOf db id) + 1
  ∧ length (tasksOf db' id) = length (tasksOf db id)
  ∧ numCompleteOf (tasksOf db id) < Z.of_nat (length (tasksOf db id)).
Proof.
  intros Happ Hda Hparent Hfinal.
  destruct (finish_action_effect _ _ _ _ _ _ _ _ _ _ Happ)
    as (d & Hd & Hopen & Hacts & _).
  rewrite Hda in Hd. injection Hd as <-.
  by apply (tasksOf_finish_child db db'
              (updateAction (DollarSet [SetStatus finalStatus; SetMessage message;
                                        SetResults results; SetCompleted t]))
              (DocId (doc a)) da id).
Qed.

(** A successful [removeAndLog] of a child of an operation: the counter
    it leaves is one more than the number of tasks that had finished
    before, which is the number of tasks that have finished now. *)
Lemma removeAndLog_counter a finalStatus results message db r db' da od :
  localID (docID (Operation (doc a))) = Operation (doc a) →
  isTerminal finalStatus = true →
  actions db !! DocId (doc a) = Some da →
  Operation da = Operation (doc a) →
  operations db !! docID (Operation (doc a)) = Some od →
  oDocId od = docID (Operation (doc a)) →
  removeAndLog a finalStatus results message db = (Ok r, db') →
  ∃ od',
    operations db' !! docID (Operation (doc a)) = Some od'
    ∧ oCompleteTaskCount od' = numCompleteOf (tasksOf db (Operation (doc a))) + 1
    ∧ (oCompleteTaskCount od = numCompleteOf (tasksOf db (Operation (doc a))) →
       oCompleteTaskCount od' = oCompleteTaskCount od + 1)
    ∧ oCompleteTaskCount od' = numCompleteOf (tasksOf db' (Operation (doc a)))
    ∧ length (tasksOf db' (Operation (doc a)))
      = length (tasksOf db (Operation (doc a)))
    ∧ oCompleteTaskCount od' ≤ Z.of_nat (length (tasksOf db' (Operation (doc a))))
    ∧ (oCompleteTaskCount od' = Z.of_nat (length (tasksOf db' (Operation (doc a)))) →
       isTerminal (oStatus od) = false ∧ isTerminal (oStatus od') = true)
    ∧ (oCompleteTaskCount od' ≠ Z.of_nat (length (tasksOf db' (Operation (doc a)))) →
       oStatus od' = oStatus od).
Proof.
  intros Hid Hfinal Hda Hparent Hod Hdoc Hrun.
  set (id := Operation (doc a)) in *.
  apply (removeAndLog_success _ _ _ _ _ _ _ od Hid Hod Hdoc) in Hrun.
  fold id in Hrun. set (p := mkOperation od (tasksOf db id)) in *.
  assert (Hpid : docID (operation_Id p) = docID id).
  { unfold operation_Id, p. cbn [odoc]. by rewrite Hdoc, Hid. }
  destruct (decide (numCompleteOf (taskStatus p)
                    = Z.of_nat (length (taskStatus p)) - 1)) as [Hlast|Hnot].
  - rewrite updateOperationOp_last in Hrun by done.
    destruct (finish_tasks _ _ _ _ _ _ _ _ _ _ da id Hrun Hda Hparent Hfinal)
      as (Hnum & Hlen & Hlt).
    destruct (promote_effect _ _ _ _ _ _ _ _ _ _ Hrun)
      as (d & Hd & Hopen & Hod').
    rewrite Hpid in Hd, Hod'. rewrite Hod in Hd. injection Hd as <-.
    eexists. split; [exact Hod'|]. cbn [oCompleteTaskCount oStatus].
    cbn [taskStatus p] in *. rewrite Hnum, Hlen.
    repeat split; try lia.
    + done.
    + by apply firstContained_terminal.
  - rewrite updateOperationOp_not_last in Hrun by done.
    destruct (finish_tasks _ _ _ _ _ _ _ _ _ _ da id Hrun Hda Hparent Hfinal)
      as (Hnum & Hlen & Hlt).
    destruct (advance_effect _ _ _ _ _ _ _ _ _ Hrun) as (d & Hd & _ & Hod').
    rewrite Hpid in Hd, Hod'. rewrite Hod in Hd. injection Hd as <-.
    eexists. split; [exact Hod'|]. cbn [oCompleteTaskCount oStatus].
    cbn [taskStatus p] in *. rewrite Hnum, Hlen.
    repeat split; try lia; done.
Qed.

Lemma advance_aborts_on_changed_counter (db : Database) o1 o2 p n od :
  operations db !! docID (operation_Id p) = Some od →
  oCompleteTaskCount od ≠ oCompleteTaskCount (odoc p) →
  applyOps [o1; o2; advanceCounterOp p n] db = None.
Proof.
  intros Hod Hne. unfold applyOps. cbn [forallb].
  assert (checkOp db (advanceCounterOp p n) = false) as ->.
  { unfold checkOp. cbn [advanceCounterOp opAssert opC opId viewDoc].
    rewrite Hod. simpl. apply bool_decide_eq_false. congruence. }
  by rewrite andb_false_r, andb_false_r.
Qed.

(** C3: a successful Finish of a child of an operation leaves the
    operation's counter at the number of tasks that had finished before
    plus one, which is the number of tasks that have finished now and so
    at most the number of tasks; when the counter stood at the number of
    finished tasks before, it has advanced by exactly one.  The
    operation's status becomes terminal exactly in the Finish that makes
    the counter reach the number of tasks, and is left alone by every
    other.  When the finishing action is not the
    last one, the operation is only given [numComplete + 1] under the
    assertion that the stored counter is the one read before: on a
    database whose counter has moved on the transaction aborts, and the
    runner's next attempt builds from a refreshed operation. *)
Theorem C3_finish_advances_counter_by_one
  (a : action) (finalStatus : ActionStatus) (results : Payload) (message : string)
  (db db' : Database) (r : action) (da : actionDoc) (od : operationDoc) :
  localID (docID (Operation (doc a))) = Operation (doc a) →
  isTerminal finalStatus = true →
  actions db !! DocId (doc a) = Some da →
  Operation da = Operation (doc a) →
  operations db !! docID (Operation (doc a)) = Some od →
  oDocId od = docID (Operation (doc a)) →
  Finish a (mkActionResults finalStatus results message) db = (Ok r, db') →
  (∃ od',
    operations db' !! docID (Operation (doc a)) = Some od'
    ∧ oCompleteTaskCount od' = numCompleteOf (tasksOf db (Operation (doc a))) + 1
    ∧ (oCompleteTaskCount od = numCompleteOf (tasksOf db (Operation (doc a))) →
       oCompleteTaskCount od' = oCompleteTaskCount od + 1)
    ∧ oCompleteTaskCount od' = numCompleteOf (tasksOf db' (Operation (doc a)))
    ∧ length (tasksOf db' (Operation (doc a)))
      = length (tasksOf db (Operation (doc a)))
    ∧ oCompleteTaskCount od' ≤ Z.of_nat (length (tasksOf db' (Operation (doc a))))
    ∧ (oCompleteTaskCount od' = Z.of_nat (length (tasksOf db' (Operation (doc a)))) →
       isTerminal (oStatus od) = false ∧ isTerminal (oStatus od') = true)
    ∧ (oCompleteTaskCount od' ≠ Z.of_nat (length (tasksOf db' (Operation (doc a)))) →
       oStatus od' = oStatus od))
  ∧ (∀ (p : operation) (t : Time),
       numCompleteOf (taskStatus p) ≠ Z.of_nat (length (taskStatus p)) - 1 →
       updateOperationOp p finalStatus t
       = advanceCounterOp p (numCompleteOf (taskStatus p) + 1)
       ∧ ∀ (db1 : Database) (od1 : operationDoc) (budget : nat),
           operations db1 !! docID (operation_Id p) = Some od1 →
           oCompleteTaskCount od1 ≠ oCompleteTaskCount (odoc p) →
           applyOps [finishActionOp a finalStatus results message t;
                     removeNotificationOp a;
                     updateOperationOp p finalStatus t] db1 = None
           ∧ runAttempts (S budget) 0
               (removeAndLog_buildTxn a finalStatus results message t) (Some p) db1
             = runAttempts budget 1
                 (removeAndLog_buildTxn a finalStatus results message t) (Some p) db1
           ∧ removeAndLog_buildTxn a finalStatus results message t 1 (Some p) db1
             = (Ok [finishActionOp a finalStatus results message t;
                    removeNotificationOp a;
                    updateOperationOp
                      (mkOperation od1 (tasksOf db1 (operation_Id p))) finalStatus t],
                Some (mkOperation od1 (tasksOf db1 (operation_Id p))))).
Proof.
  intros Hid Hfinal Hda Hparent Hod Hdoc Hrun. split.
  - by apply (removeAndLog_counter a finalStatus results message db r db' da od).
  - intros p t Hnot. split; [by apply updateOperationOp_not_last|].
    intros db1 od1 budget Hod1 Hne.
    assert (Habort :
      applyOps [finishActionOp a finalStatus results message t;
                removeNotificationOp a;
                updateOperationOp p finalStatus t] db1 = None).
    { rewrite updateOperationOp_not_last by done.
      by apply advance_aborts_on_changed_counter with od1. }
    split; [done|]. split.
    + cbn [runAttempts]. rewrite removeAndLog_buildTxn_first. by rewrite Habort.
    + apply removeAndLog_buildTxn_retry. unfold Model_Operation. by rewrite Hod1.
Qed.

(** *** [Begin] *)

Lemma Begin_buildTxn_first a t p db :
  Begin_buildTxn a t 0 (Some p) db
  = (Ok (beginActionOp a t ::
         if bool_decide (oStatus (odoc p) = ActionPending)
         then [beginOperationOp p t] else []), Some p).
Proof.
  unfold Begin_buildTxn. cbn [Nat.ltb Nat.leb]. by case_bool_decide.
Qed.

Lemma Begin_buildTxn_fresh a t p db k :
  Model_Operation db (operation_Id p) = Ok p →
  Begin_buildTxn a t k (Some p) db
  = (Ok (beginActionOp a t ::
         if bool_decide (oStatus (odoc p) = ActionPending)
         then [beginOperationOp p t] else []), Some p).
Proof.
  intros Hp. destruct k as [|k]; [apply Begin_buildTxn_first|].
  unfold Begin_buildTxn, operation_Refresh. cbn [Nat.ltb Nat.leb].
  rewrite Hp. by case_bool_decide.
Qed.

Lemma Begin_buildTxn_orphan a t db k :
  Begin_buildTxn a t k None db = (Ok [beginActionOp a t], None).
Proof. done. Qed.

Lemma begin_action_check db a t da :
  actions db !! DocId (doc a) = Some da →
  checkOp db (beginActionOp a t) = bool_decide (Status da = ActionPending).
Proof.
  intros Hda. unfold checkOp. cbn [beginActionOp opAssert opC opId viewDoc].
  rewrite Hda. simpl. apply bool_decide_ext. split; congruence.
Qed.

Lemma Model_Action_reread db a d :
  docID (action_Id a) = DocId (doc a) →
  actions db !! DocId (doc a) = Some d →
  Model_Action db (action_Id a) = Ok (newAction d).
Proof.
  intros Hid Hm. unfold Model_Action, FindId_One. by rewrite Hid, Hm.
Qed.

Lemma applyOps_begin_action db a t da :
  actions db !! DocId (doc a) = Some da →
  Status da = ActionPending →
  applyOps [beginActionOp a t] db
  = Some (withActions db (<[DocId (doc a) := beganAction da t]> (actions db))).
Proof.
  intros Hda Hs. unfold applyOps. cbn [forallb].
  rewrite (begin_action_check db a t da Hda), bool_decide_eq_true_2 by done.
  cbn [andb foldl applyOp beginActionOp opC opRemove opInsert opUpdate opId].
  by rewrite (alter_alt_Some _ _ _ da Hda).
Qed.

Lemma applyOps_begin_both db a t da p od :
  actions db !! DocId (doc a) = Some da →
  Status da = ActionPending →
  operations db !! docID (operation_Id p) = Some od →
  oStatus od = ActionPending →
  applyOps [beginActionOp a t; beginOperationOp p t] db
  = Some (mkDatabase (<[DocId (doc a) := beganAction da t]> (actions db))
            (actionNotifications db)
            (<[docID (operation_Id p) := beganOperation od t]> (operations db))
            (entities db)).
Proof.
  intros Hda Hs Hod Hos. unfold applyOps. cbn [forallb].
  rewrite (begin_action_check db a t da Hda), bool_decide_eq_true_2 by done.
  assert (checkOp db (beginOperationOp p t) = true) as ->.
  { unfold checkOp. cbn [beginOperationOp opAssert opC opId viewDoc].
    rewrite Hod. simpl. apply bool_decide_eq_true. congruence. }
  cbn [andb foldl applyOp beginActionOp beginOperationOp opC opRemove opInsert
       opUpdate opId].
  unfold withOperations, withActions.
  cbn [actions actionNotifications operations entities].
  by rewrite (alter_alt_Some _ _ _ da Hda), (alter_alt_Some _ _ _ od Hod).
Qed.

Lemma applyOps_begin_refused db a t da rest :
  actions db !! DocId (doc a) = Some da →
  Status da ≠ ActionPending →
  applyOps (beginActionOp a t :: rest) db = None.
Proof.
  intros Hda Hs. unfold applyOps. cbn [forallb].
  by rewrite (begin_action_check db a t da Hda), bool_decide_eq_false_2.
Qed.

(** C4: the transaction of [Begin] asserts that the action is pending and
    sets it running with its start stamp; when the parent operation has
    been found and is pending the same transaction sets it running with
    the same stamp, and otherwise touches no operation.  On a pending
    action [Begin] commits that transaction and returns the action as
    re-read from the database; on an action that is not pending nothing
    is changed and an error is returned. *)
Theorem C4_begin_sets_running (a : action) (db : Database) (da : actionDoc) :
  st_Model = Ok tt →
  actions db !! DocId (doc a) = Some da →
  localID (docID (Operation (doc a))) = Operation (doc a) →
  (∀ od, operations db !! docID (Operation (doc a)) = Some od →
         oDocId od = docID (Operation (doc a))) →
  (∀ t k, Begin_buildTxn a t k None db = (Ok [beginActionOp a t], None))
  ∧ (∀ t p,
       Begin_buildTxn a t 0 (Some p) db
       = (Ok (beginActionOp a t ::
              if bool_decide (oStatus (odoc p) = ActionPending)
              then [beginOperationOp p t] else []), Some p))
  ∧ (Status da = ActionPending →
     (0 < nrRetries)%nat →
     docID (action_Id a) = DocId (doc a) →
     Begin a db
     = (Ok (newAction (beganAction da nowToTheSecond)),
        mkDatabase
          (<[DocId (doc a) := beganAction da nowToTheSecond]> (actions db))
          (actionNotifications db)
          (operationsAfterBegin (docID (Operation (doc a))) nowToTheSecond
             (operations db))
          (entities db)))
  ∧ (Status da ≠ ActionPending → ∃ e, Begin a db = (Err e, db)).
Proof.
  intros Hmodel Hda Hid Hwf.
  split; [intros; apply Begin_buildTxn_orphan|].
  split; [intros; apply Begin_buildTxn_first|].
  set (id := Operation (doc a)) in *.
  assert (Hbegin : Begin a db
    = match operations db !! docID id with
      | Some od => Begin_with (Some (mkOperation od (tasksOf db id))) a db
      | None => Begin_with None a db
      end).
  { unfold Begin. rewrite Hmodel. fold id. unfold Model_Operation.
    by destruct (operations db !! docID id). }
  split.
  - intros Hpending Hbudget Hreread. rewrite Hbegin.
    unfold operationsAfterBegin.
    destruct (operations db !! docID id) as [od|] eqn:Hod.
    + destruct (Model_Operation_fresh db id od Hid Hod (Hwf od eq_refl)) as [Hp Hpid].
      set (p := mkOperation od (tasksOf db id)) in *.
      unfold Begin_with, Run.
      rewrite (runAttempts_stable _ _ _
                 (beginActionOp a nowToTheSecond ::
                  if bool_decide (oStatus (odoc p) = ActionPending)
                  then [beginOperationOp p nowToTheSecond] else []))
        by (intros k; apply Begin_buildTxn_fresh; by rewrite Hpid).
      destruct nrRetries as [|budget]; [lia|].
      cbn [odoc p]. case_bool_decide as Hos.
      * rewrite (applyOps_begin_both db a _ da p od) by (by rewrite ?Hpid).
        rewrite Hpid. f_equal.
        apply Model_Action_reread; [done | apply lookup_insert_eq].
      * rewrite (applyOps_begin_action db a _ da) by done. f_equal.
        apply Model_Action_reread; [done | apply lookup_insert_eq].
    + unfold Begin_with, Run.
      rewrite (runAttempts_stable _ _ _ [beginActionOp a nowToTheSecond])
        by (intros k; apply Begin_buildTxn_orphan).
      destruct nrRetries as [|budget]; [lia|].
      rewrite (applyOps_begin_action db a _ da) by done. f_equal.
      apply Model_Action_reread; [done | apply lookup_insert_eq].
  - intros Hnot. rewrite Hbegin.
    destruct (operations db !! docID id) as [od|] eqn:Hod.
    + destruct (Model_Operation_fresh db id od Hid Hod (Hwf od eq_refl)) as [Hp Hpid].
      set (p := mkOperation od (tasksOf db id)) in *.
      unfold Begin_with, Run.
      rewrite (runAttempts_stable _ _ _
                 (beginActionOp a nowToTheSecond ::
                  if bool_decide (oStatus (odoc p) = ActionPending)
                  then [beginOperationOp p nowToTheSecond] else []))
        by (intros k; apply Begin_buildTxn_fresh; by rewrite Hpid).
      rewrite (applyOps_begin_refused db a _ da) by done.
      eexists. by destruct nrRetries.
    + unfold Begin_with, Run.
      rewrite (runAttempts_stable _ _ _ [beginActionOp a nowToTheSecond])
        by (intros k; apply Begin_buildTxn_orphan).
      rewrite (applyOps_begin_refused db a _ da) by done.
      eexists. by destruct nrRetries.
Qed.

(** *** [Log] *)

Lemma Log_buildTxn_first_running message a db :
  Status (doc a) = ActionRunning →
  Log_buildTxn message 0 a db = (Ok [logOp a message], a).
Proof.
  intros Hs. unfold Log_buildTxn, action_Status. cbn [Nat.ltb Nat.leb].
  by rewrite Hs.
Qed.

Lemma Log_buildTxn_first_not_running message a db :
  Status (doc a) ≠ ActionRunning →
  Log_buildTxn message 0 a db
  = (Err (Errorf_cannot_log (action_Id a) (Status (doc a))), a).
Proof.
  intros Hs. unfold Log_buildTxn, action_Status. cbn [Nat.ltb Nat.leb].
  by rewrite bool_decide_eq_false_2.
Qed.

Lemma Log_buildTxn_retry message k a db :
  Log_buildTxn message (S k) a db
  = match Model_Action db (action_Id a) with
    | Err err => (Err (Traced err), a)
    | Ok anAction => Log_buildTxn message 0 anAction db
    end.
Proof.
  unfold Log_buildTxn. cbn [Nat.ltb Nat.leb].
  by destruct (Model_Action db (action_Id a)).
Qed.

Lemma log_check db a message d :
  actions db !! DocId (doc a) = Some d →
  checkOp db (logOp a message) = bool_decide (Status d = ActionRunning).
Proof.
  intros Hd. unfold checkOp. cbn [logOp opAssert opC opId viewDoc].
  rewrite Hd. simpl. apply bool_decide_ext. split; congruence.
Qed.

Lemma applyOps_log db a message d :
  actions db !! DocId (doc a) = Some d →
  Status d = ActionRunning →
  applyOps [logOp a message] db
  = Some (withActions db
            (<[DocId (doc a) :=
                 pushActionMessage (mkActionMessage message nowToTheSecond) d]>
               (actions db))).
Proof.
  intros Hd Hs. unfold applyOps. cbn [forallb].
  rewrite (log_check db a message d Hd), bool_decide_eq_true_2 by done.
  cbn [andb foldl applyOp logOp opC opRemove opInsert opUpdate opId].
  by rewrite (alter_alt_Some _ _ _ d Hd).
Qed.

Lemma applyOps_log_refused db a message d :
  actions db !! DocId (doc a) = Some d →
  Status d ≠ ActionRunning →
  applyOps [logOp a message] db = None.
Proof.
  intros Hd Hs. unfold applyOps. cbn [forallb].
  by rewrite (log_check db a message d Hd), bool_decide_eq_false_2.
Qed.

(** [Log] through a handle that shows a status other than running. *)
Lemma Log_not_running a message db :
  (length (Logs (doc a)) ≤ 1000)%nat →
  Status (doc a) ≠ ActionRunning →
  (∃ e, Log a message db = (Some e, db))
  ∧ (st_Model = Ok tt → (0 < nrRetries)%nat →
     Log a message db
     = (Some (Traced (Errorf_cannot_log (action_Id a) (Status (doc a)))), db)).
Proof.
  intros Hlen Hs.
  assert (Hcap : (1000 <? length (Logs (doc a)))%nat = false)
    by (apply Nat.ltb_ge; lia).
  unfold Log, Run. rewrite Hcap. split.
  - destruct st_Model; [|by eexists].
    destruct nrRetries as [|budget]; cbn [runAttempts]; [by eexists|].
    rewrite Log_buildTxn_first_not_running by done. by eexists.
  - intros -> Hbudget. destruct nrRetries as [|budget]; [lia|].
    cbn [runAttempts]. by rewrite Log_buildTxn_first_not_running.
Qed.

(** [Log] through a handle that still shows running, on a database in
    which the action no longer is. *)
Lemma Log_stale_handle a message db d :
  (length (Logs (doc a)) ≤ 1000)%nat →
  Status (doc a) = ActionRunning →
  actions db !! DocId (doc a) = Some d →
  Status d ≠ ActionRunning →
  docID (action_Id a) = DocId (doc a) →
  ∃ e, Log a message db = (Some e, db).
Proof.
  intros Hlen Hs Hd Hds Hid.
  assert (Hcap : (1000 <? length (Logs (doc a)))%nat = false)
    by (apply Nat.ltb_ge; lia).
  unfold Log, Run. rewrite Hcap.
  destruct st_Model; [|by eexists].
  destruct nrRetries as [|budget]; cbn [runAttempts]; [by eexists|].
  rewrite Log_buildTxn_first_running by done.
  rewrite (applyOps_log_refused db a message d) by done.
  destruct budget as [|budget]; cbn [runAttempts]; [by eexists|].
  rewrite Log_buildTxn_retry, (Model_Action_reread db a d) by done.
  rewrite Log_buildTxn_first_not_running by done. by eexists.
Qed.

(** C8: through a handle whose status is not running, and whose log
    holds at most 1000 entries, [Log] returns an error and leaves the
    database as it is; the error is the one that names the task and its
    status once the model is at hand and the runner makes an attempt.
    On a retried attempt the builder first fetches the action again and
    tests the status of what it fetched; the append it builds asserts
    that the stored status is running, so it is refused on a database
    in which the action is not running, and a handle that still shows
    running then gets an error as well. *)
Theorem C8_log_requires_running (a : action) (message : string) (db : Database) :
  (length (Logs (doc a)) ≤ 1000)%nat →
  Status (doc a) ≠ ActionRunning →
  (∃ e, Log a message db = (Some e, db))
  ∧ (st_Model = Ok tt → (0 < nrRetries)%nat →
     Log a message db
     = (Some (Traced (Errorf_cannot_log (action_Id a) (Status (doc a)))), db))
  ∧ (∀ (b : action) (k : nat) (db1 : Database),
       Log_buildTxn message (S k) b db1
       = match Model_Action db1 (action_Id b) with
         | Err err => (Err (Traced err), b)
         | Ok anAction => Log_buildTxn message 0 anAction db1
         end)
  ∧ (∀ (b : action) (db1 : Database),
       Status (doc b) = ActionRunning →
       Log_buildTxn message 0 b db1 = (Ok [logOp b message], b)
       ∧ opAssert (logOp b message) = AssertStatus ActionRunning
       ∧ ∀ d, actions db1 !! DocId (doc b) = Some d →
              Status d ≠ ActionRunning →
              applyOps [logOp b message] db1 = None
              ∧ ((length (Logs (doc b)) ≤ 1000)%nat →
                 docID (action_Id b) = DocId (doc b) →
                 ∃ e, Log b message db1 = (Some e, db1))).
Proof.
  intros Hlen Hs.
  destruct (Log_not_running a message db Hlen Hs) as [Herr Hexact].
  split; [done|]. split; [done|]. split.
  - intros b k db1. apply Log_buildTxn_retry.
  - intros b db1 Hb. split; [by apply Log_buildTxn_first_running|].
    split; [done|]. intros d Hd Hds. split.
    + by apply applyOps_log_refused with d.
    + intros Hblen Hbid. by apply Log_stale_handle with d.
Qed.

Lemma Log_running a message db d :
  st_Model = Ok tt →
  (0 < nrRetries)%nat →
  (length (Logs (doc a)) ≤ 1000)%nat →
  Status (doc a) = ActionRunning →
  actions db !! DocId (doc a) = Some d →
  Status d = ActionRunning →
  Log a message db
  = (None,
     withActions db
       (<[DocId (doc a) :=
            pushActionMessage (mkActionMessage message nowToTheSecond) d]>
          (actions db))).
Proof.
  intros Hmodel Hbudget Hlen Hs Hd Hds.
  assert (Hcap : (1000 <? length (Logs (doc a)))%nat = false)
    by (apply Nat.ltb_ge; lia).
  unfold Log, Run. rewrite Hcap, Hmodel.
  destruct nrRetries as [|budget]; [lia|]. cbn [runAttempts].
  rewrite Log_buildTxn_first_running by done.
  by rewrite (applyOps_log db a message d).
Qed.

Lemma Log_over_cap a message db :
  (1000 < length (Logs (doc a)))%nat → Log a message db = (None, db).
Proof.
  intros Hlen. unfold Log.
  by rewrite (proj2 (Nat.ltb_lt _ _) Hlen).
Qed.

(** C2, as the code has it: on a running action whose log holds exactly
    1000 entries, [Log] commits the append and returns no error, and the
    stored log then holds 1001 entries.  The append is dropped, without
    an error, only through a handle whose log holds more than 1000
    entries. *)
Theorem C2_log_with_1000_entries_appends (a : action) (message : string)
  (db : Database) (d : actionDoc) :
  st_Model = Ok tt →
  (0 < nrRetries)%nat →
  length (Logs (doc a)) = 1000%nat →
  Status (doc a) = ActionRunning →
  actions db !! DocId (doc a) = Some d →
  Status d = ActionRunning →
  length (Logs d) = 1000%nat →
  (∃ db' d',
     Log a message db = (None, db')
     ∧ actions db' !! DocId (doc a) = Some d'
     ∧ Logs d' = Logs d ++ [mkActionMessage message nowToTheSecond]
     ∧ length (Logs d') = 1001%nat)
  ∧ (∀ b : action, (1000 < length (Logs (doc b)))%nat →
       Log b message db = (None, db)).
Proof.
  intros Hmodel Hbudget Hlen Hs Hd Hds Hdlen.
  split; [|intros b Hb; by apply Log_over_cap].
  rewrite (Log_running a message db d) by (done || lia).
  eexists _, _. split; [done|]. cbn [actions withActions].
  rewrite lookup_insert_eq. split; [done|]. split; [done|].
  cbn [pushActionMessage Logs]. rewrite length_app, Hdlen. done.
Qed.

(** *** What a run of the runner can have done *)

Lemma runAttempts_all_refused {L : Type}
  (build : nat → L → Database → Result (list Op) * L)
  (l : L) (db : Database) (budget attempt : nat) :
  (∀ k l0 ops l1, build k l0 db = (Ok ops, l1) → applyOps ops db = None) →
  ∃ e, runAttempts budget attempt build l db = (Err e, db).
Proof.
  intros Hrefused. revert attempt l.
  induction budget as [|budget IH]; intros attempt l; cbn [runAttempts];
    [by eexists|].
  destruct (build attempt l db) as [[ops|e] l'] eqn:Hb; [|by eexists].
  rewrite (Hrefused _ _ _ _ Hb). apply IH.
Qed.

Lemma runAttempts_committed {L : Type}
  (build : nat → L → Database → Result (list Op) * L)
  (l : L) (db db' : Database) (budget attempt : nat) :
  runAttempts budget attempt build l db = (Ok tt, db') →
  ∃ k l0 ops l1, build k l0 db = (Ok ops, l1) ∧ applyOps ops db = Some db'.
Proof.
  revert attempt l. induction budget as [|budget IH]; intros attempt l;
    cbn [runAttempts]; [done|].
  destruct (build attempt l db) as [[ops|e] l'] eqn:Hb; [|done].
  destruct (applyOps ops db) as [db1|] eqn:Happ.
  - intros [= <-]. by exists attempt, l, ops, l'.
  - apply IH.
Qed.

(** *** [Finish]: the guard on the action and the removal of the
    notification *)

Lemma updateOperationOp_form p finalStatus t :
  ∃ asO uo,
    updateOperationOp p finalStatus t
    = mkOp operationsC (docID (operation_Id p)) asO None (Some uo) false.
Proof.
  unfold updateOperationOp. destruct (countTasks finalStatus (taskStatus p)).
  destruct (_ =? _); by eexists _, _.
Qed.

Lemma removeAndLog_buildTxn_shape a finalStatus results message t k parent db :
  ∃ l',
    removeAndLog_buildTxn a finalStatus results message t k parent db
    = (Ok [finishActionOp a finalStatus results message t;
           removeNotificationOp a], l')
    ∨ ∃ p,
        removeAndLog_buildTxn a finalStatus results message t k parent db
        = (Ok [finishActionOp a finalStatus results message t;
               removeNotificationOp a;
               updateOperationOp p finalStatus t], l').
Proof.
  destruct parent as [p|]; [|exists None; by left].
  destruct k as [|k]; [exists (Some p); right; by exists p|].
  unfold removeAndLog_buildTxn, operation_Refresh, Model_Operation.
  cbn [Nat.ltb Nat.leb].
  destruct (operations db !! docID (operation_Id p)) as [od|];
    cbn [negb IsNotFound Cause]; eexists; right; eexists; reflexivity.
Qed.

Lemma finish_check db a finalStatus results message t :
  checkOp db (finishActionOp a finalStatus results message t)
  = match actions db !! DocId (doc a) with
    | Some d => negb (isTerminal (Status d))
    | None => false
    end.
Proof.
  unfold checkOp. cbn [finishActionOp opAssert opC opId viewDoc].
  destruct (actions db !! DocId (doc a)) as [d|]; [|done].
  done.
Qed.

Lemma applyOps_finish_refused db a finalStatus results message t rest d :
  actions db !! DocId (doc a) = Some d →
  isTerminal (Status d) = true →
  applyOps (finishActionOp a finalStatus results message t :: rest) db = None.
Proof.
  intros Hd Hterm. unfold applyOps. cbn [forallb].
  by rewrite finish_check, Hd, Hterm.
Qed.

Lemma applyOps_finish_absent db a finalStatus results message t rest :
  actions db !! DocId (doc a) = None →
  applyOps (finishActionOp a finalStatus results message t :: rest) db = None.
Proof.
  intros Hd. unfold applyOps. cbn [forallb]. by rewrite finish_check, Hd.
Qed.

Lemma finished_action_eq finalStatus message results t d :
  updateAction (DollarSet [SetStatus finalStatus; SetMessage message;
                           SetResults results; SetCompleted t]) d
  = finishedAction d finalStatus message results t.
Proof. done. Qed.

(** What a committed finishing transaction has done to the action and to
    its notification. *)
Lemma finish_committed db db' a finalStatus results message t ops l k parent :
  removeAndLog_buildTxn a finalStatus results message t k parent db = (Ok ops, l) →
  applyOps ops db = Some db' →
  ∃ d, actions db !! DocId (doc a) = Some d
       ∧ isTerminal (Status d) = false
       ∧ actions db'
         = <[DocId (doc a) := finishedAction d finalStatus message results t]>
             (actions db)
       ∧ actionNotifications db' = delete (notificationId a) (actionNotifications db)
       ∧ entities db' = entities db.
Proof.
  intros Hbuild Happ.
  assert (∃ d, actions db !! DocId (doc a) = Some d
               ∧ isTerminal (Status d) = false
               ∧ actions db'
                 = alter (updateAction
                            (DollarSet [SetStatus finalStatus; SetMessage message;
                                        SetResults results; SetCompleted t]))
                     (DocId (doc a)) (actions db)
               ∧ actionNotifications db'
                 = delete (notificationId a) (actionNotifications db)
               ∧ entities db' = entities db) as (d & Hd & Hopen & Hacts & Hn & He).
  { destruct (removeAndLog_buildTxn_shape a finalStatus results message t k parent db)
      as [l' [Hshape | [p Hshape]]]; rewrite Hshape in Hbuild;
      injection Hbuild as <- <-.
    - apply applyOps_two in Happ as (Ha & ->).
      apply check_status_nin_action in Ha as (d & Hd & Hnin).
      exists d. repeat split; try done.
      unfold isTerminal. apply bool_decide_eq_false. set_solver.
    - destruct (updateOperationOp_form p finalStatus t) as (asO & uo & Hform).
      rewrite Hform in Happ.
      destruct (finish_action_effect _ _ _ _ _ _ _ _ _ _ Happ)
        as (d & Hd & Hopen & Hacts & Hn).
      exists d. repeat split; try done.
      by apply applyOps_three in Happ as (_ & _ & ->). }
  exists d. repeat split; try done.
  by rewrite Hacts, (alter_alt_Some _ _ _ d Hd), finished_action_eq.
Qed.

Lemma removeAndLog_with_committed parent a finalStatus results message db r db' :
  removeAndLog_with parent a finalStatus results message db = (Ok r, db') →
  ∃ d, actions db !! DocId (doc a) = Some d
       ∧ isTerminal (Status d) = false
       ∧ actions db'
         = <[DocId (doc a) :=
               finishedAction d finalStatus message results nowToTheSecond]>
             (actions db)
       ∧ actionNotifications db' = delete (notificationId a) (actionNotifications db)
       ∧ entities db' = entities db.
Proof.
  unfold removeAndLog_with, Run.
  destruct (runAttempts nrRetries 0 _ parent db) as [[[]|e] db1] eqn:Hrun; [|done].
  intros [= _ <-].
  apply runAttempts_committed in Hrun as (k & l0 & ops & l1 & Hbuild & Happ).
  by apply (finish_committed db db1 a finalStatus results message _ ops l1 k l0).
Qed.

Lemma removeAndLog_committed a finalStatus results message db r db' :
  removeAndLog a finalStatus results message db = (Ok r, db') →
  ∃ d, actions db !! DocId (doc a) = Some d
       ∧ isTerminal (Status d) = false
       ∧ actions db'
         = <[DocId (doc a) :=
               finishedAction d finalStatus message results nowToTheSecond]>
             (actions db)
       ∧ actionNotifications db' = delete (notificationId a) (actionNotifications db)
       ∧ entities db' = entities db.
Proof.
  unfold removeAndLog. destruct st_Model; [|done].
  destruct (Model_Operation db (Operation (doc a))) as [p|e].
  - apply removeAndLog_with_committed.
  - destruct (negb (IsNotFound e)); [done|]. apply removeAndLog_with_committed.
Qed.

Lemma removeAndLog_with_refused parent a finalStatus results message db :
  (∀ d, actions db !! DocId (doc a) = Some d → isTerminal (Status d) = true) →
  ∃ e, removeAndLog_with parent a finalStatus results message db = (Err e, db).
Proof.
  intros Hterm. unfold removeAndLog_with, Run.
  destruct (runAttempts_all_refused
              (removeAndLog_buildTxn a finalStatus results message nowToTheSecond)
              parent db nrRetries 0) as [e ->]; [|by eexists].
  intros k l0 ops l1 Hbuild.
  destruct (removeAndLog_buildTxn_shape a finalStatus results message
              nowToTheSecond k l0 db) as [l' [Hshape | [p Hshape]]];
    rewrite Hshape in Hbuild; injection Hbuild as <- <-;
    (destruct (actions db !! DocId (doc a)) as [d|] eqn:Hd;
     [by apply applyOps_finish_refused with d; [|apply Hterm]
     |by apply applyOps_finish_absent]).
Qed.

Lemma removeAndLog_refused a finalStatus results message db :
  (∀ d, actions db !! DocId (doc a) = Some d → isTerminal (Status d) = true) →
  ∃ e, removeAndLog a finalStatus results message db = (Err e, db).
Proof.
  intros Hterm. unfold removeAndLog. destruct st_Model; [|by eexists].
  destruct (Model_Operation db (Operation (doc a))) as [p|e].
  - by apply removeAndLog_with_refused.
  - destruct (negb (IsNotFound e)); [by eexists|].
    by apply removeAndLog_with_refused.
Qed.

(** A committed [removeAndLog] of the last outstanding child, on the
    database its snapshot was read from. *)
Lemma removeAndLog_last_child a finalStatus results message db r db' da od :
  localID (docID (Operation (doc a))) = Operation (doc a) →
  isTerminal finalStatus = true →
  actions db !! DocId (doc a) = Some da →
  Operation da = Operation (doc a) →
  operations db !! docID (Operation (doc a)) = Some od →
  oDocId od = docID (Operation (doc a)) →
  (∀ k d, actions db !! k = Some d → Operation d = Operation (doc a) →
          k ≠ DocId (doc a) → isTerminal (Status d) = true) →
  removeAndLog a finalStatus results message db = (Ok r, db') →
  ∃ od' s,
    operations db' !! docID (Operation (doc a)) = Some od'
    ∧ List.find (λ s, bool_decide (s ∈ tasksOf db' (Operation (doc a))))
        statusCompletedOrder = Some s
    ∧ oStatus od' = s
    ∧ Forall (λ s, isTerminal s = true) (tasksOf db' (Operation (doc a)))
    ∧ oCompleteTaskCount od' = Z.of_nat (length (tasksOf db' (Operation (doc a))))
    ∧ (ActionFailed ∈ tasksOf db' (Operation (doc a)) → s = ActionFailed).
Proof.
  intros Hid Hfinal Hda Hparent Hod Hdoc Hothers Hrun.
  set (id := Operation (doc a)) in *.
  apply (removeAndLog_success _ _ _ _ _ _ _ od Hid Hod Hdoc) in Hrun.
  fold id in Hrun. set (p := mkOperation od (tasksOf db id)) in *.
  assert (Hpid : docID (operation_Id p) = docID id).
  { unfold operation_Id, p. cbn [odoc]. by rewrite Hdoc, Hid. }
  destruct (updateOperationOp_form p finalStatus nowToTheSecond)
    as (asO & uo & Hform).
  assert (Hrun' := Hrun). rewrite Hform in Hrun'.
  destruct (finish_action_effect _ _ _ _ _ _ _ _ _ _ Hrun')
    as (d & Hd & Hopen & Hacts & _).
  rewrite Hda in Hd. injection Hd as <-.
  destruct (tasksOf_alter_child db db'
              (updateAction (DollarSet [SetStatus finalStatus; SetMessage message;
                                        SetResults results;
                                        SetCompleted nowToTheSecond]))
              (DocId (doc a)) da id Hda Hparent Hparent Hacts)
    as (rest & Hbefore & Hafter & Hrest).
  change (Status (updateAction _ da)) with finalStatus in Hafter.
  assert (Hterm : Forall (λ s, isTerminal s = true) rest).
  { apply Forall_forall. intros s Hs.
    destruct (Hrest s Hs) as (k' & d' & Hne & Hk' & Hop' & <-).
    by apply (Hothers k' d'). }
  assert (Hlast : numCompleteOf (taskStatus p)
                  = Z.of_nat (length (taskStatus p)) - 1).
  { cbn [taskStatus p]. rewrite (numCompleteOf_Permutation _ _ Hbefore), Hbefore.
    apply (numCompleteOf_one_outstanding [] (Status da) rest); [done|].
    by rewrite app_nil_l. }
  rewrite updateOperationOp_last in Hrun by done.
  destruct (promote_effect _ _ _ _ _ _ _ _ _ _ Hrun) as (d & Hd & _ & Hod').
  rewrite Hpid in Hd, Hod'. rewrite Hod in Hd. injection Hd as <-.
  assert (Hfind :
    firstContained statusCompletedOrder
      (list_to_set (taskStatus p) ∪ {[finalStatus]}) finalStatus
    = default finalStatus
        (List.find (λ s, bool_decide (s ∈ tasksOf db' id)) statusCompletedOrder)).
  { rewrite firstContained_find. f_equal. apply find_ext_in. intros s Hs.
    apply bool_decide_ext. cbn [taskStatus p].
    rewrite elem_of_union, elem_of_list_to_set, Hbefore, Hafter.
    assert (s ≠ Status da).
    { intros ->. unfold statusCompletedOrder in Hs.
      destruct (Status da); try discriminate; set_solver. }
    set_solver. }
  destruct (find_terminal_some (tasksOf db' id) finalStatus) as [s Hs];
    [done | rewrite Hafter; set_solver |].
  rewrite Hs in Hfind. cbn [default] in Hfind.
  eexists _, s. split; [exact Hod'|]. cbn [oStatus oCompleteTaskCount].
  split; [done|]. split; [done|]. split.
  { rewrite Hafter. by constructor. }
  split.
  { rewrite Hlast. cbn [taskStatus p]. rewrite Hbefore, Hafter. cbn [length]. lia. }
  intros Hfailed. unfold statusCompletedOrder in Hs. cbn [List.find] in Hs.
  rewrite bool_decide_eq_true_2 in Hs by done. congruence.
Qed.

(** C1: a Finish that commits on the last outstanding child of an
    operation (every other task of the operation is terminal) leaves the
    operation with the first status of [statusCompletedOrder] that
    occurs among the final statuses of all its tasks, the one just
    applied included, and with a counter equal to the number of tasks.
    The transaction is the one [removeAndLog] builds from a snapshot
    with one outstanding task: it sets the operation's status to the
    first entry of the precedence list found among the other tasks'
    statuses and the applied one.  Whenever Failed occurs among them the
    status is Failed: with two children, one failed and the other
    finishing Completed, the operation ends Failed. *)
Theorem C1_last_child_sets_precedence_status
  (a : action) (finalStatus : ActionStatus) (results : Payload) (message : string)
  (db db' : Database) (r : action) (da : actionDoc) (od : operationDoc) :
  localID (docID (Operation (doc a))) = Operation (doc a) →
  isTerminal finalStatus = true →
  actions db !! DocId (doc a) = Some da →
  Operation da = Operation (doc a) →
  operations db !! docID (Operation (doc a)) = Some od →
  oDocId od = docID (Operation (doc a)) →
  (∀ k d, actions db !! k = Some d → Operation d = Operation (doc a) →
          k ≠ DocId (doc a) → isTerminal (Status d) = true) →
  Finish a (mkActionResults finalStatus results message) db = (Ok r, db') →
  (∃ od' s,
     operations db' !! docID (Operation (doc a)) = Some od'
     ∧ List.find (λ s, bool_decide (s ∈ tasksOf db' (Operation (doc a))))
         statusCompletedOrder = Some s
     ∧ oStatus od' = s
     ∧ Forall (λ s, isTerminal s = true) (tasksOf db' (Operation (doc a)))
     ∧ oCompleteTaskCount od' = Z.of_nat (length (tasksOf db' (Operation (doc a))))
     ∧ (ActionFailed ∈ tasksOf db' (Operation (doc a)) → s = ActionFailed))
  ∧ (∀ (p : operation) (cur : ActionStatus) (before after : list ActionStatus)
       (t : Time),
       taskStatus p = before ++ cur :: after →
       isTerminal cur = false →
       Forall (λ s, isTerminal s = true) (before ++ after) →
       ∃ s,
         List.find (λ s, bool_decide (s ∈ finalStatus :: before ++ after))
           statusCompletedOrder = Some s
         ∧ removeAndLog_buildTxn a finalStatus results message t 0 (Some p) db
           = (Ok [finishActionOp a finalStatus results message t;
                  removeNotificationOp a;
                  promoteOperationOp p s t (Z.of_nat (length (taskStatus p)))],
              Some p)
         ∧ (ActionFailed ∈ finalStatus :: before ++ after → s = ActionFailed))
  ∧ (∀ od0 cur t,
       isTerminal cur = false →
       finalStatus = ActionCompleted →
       updateOperationOp (mkOperation od0 [ActionFailed; cur]) finalStatus t
       = promoteOperationOp (mkOperation od0 [ActionFailed; cur]) ActionFailed t 2).
Proof.
  intros Hid Hfinal Hda Hparent Hod Hdoc Hothers Hrun. split; [|split].
  - by apply (removeAndLog_last_child a finalStatus results message db r db' da od).
  - intros p cur before after t Htasks Hcur Hterm.
    destruct (promote_on_last_child p finalStatus cur before after t
                Hfinal Htasks Hcur Hterm) as (s & Hs & _ & Hbuild & _ & Hfailed).
    exists s. split; [done|]. split; [apply Hbuild | done].
  - intros od0 cur t Hcur ->.
    destruct (promote_on_last_child (mkOperation od0 [ActionFailed; cur])
                ActionCompleted cur [ActionFailed] [] t)
      as (s & _ & Hop & _ & _ & Hfailed); [done | done | done | |].
    + repeat constructor.
    + rewrite Hop, Hfailed; [done | set_solver].
Qed.

Lemma applyOps_checked ops db :
  forallb (checkOp db) ops = true → ∃ db', applyOps ops db = Some db'.
Proof. intros Hc. unfold applyOps. rewrite Hc. by eexists. Qed.

Lemma updateOperationOp_check db p finalStatus t od :
  operations db !! docID (operation_Id p) = Some od →
  oCompleteTaskCount od = oCompleteTaskCount (odoc p) →
  (numCompleteOf (taskStatus p) = Z.of_nat (length (taskStatus p)) - 1 →
   isTerminal (oStatus od) = false) →
  checkOp db (updateOperationOp p finalStatus t) = true.
Proof.
  intros Hod Hcount Hopen.
  destruct (decide (numCompleteOf (taskStatus p)
                    = Z.of_nat (length (taskStatus p)) - 1)) as [Hlast|Hnot].
  - rewrite updateOperationOp_last by done. unfold checkOp.
    cbn [promoteOperationOp opAssert opC opId viewDoc]. rewrite Hod.
    cbn. specialize (Hopen Hlast). unfold isTerminal, terminalStatuses in Hopen.
    apply negb_true_iff. rewrite <- Hopen. apply bool_decide_ext. set_solver.
  - rewrite updateOperationOp_not_last by done. unfold checkOp.
    cbn [advanceCounterOp opAssert opC opId viewDoc]. rewrite Hod.
    cbn. apply bool_decide_eq_true. congruence.
Qed.

(** [removeAndLog] commits on an action that is not yet terminal, unless
    its parent operation is already terminal when its last task
    finishes. *)
Lemma removeAndLog_succeeds a finalStatus results message db da :
  st_Model = Ok tt →
  (0 < nrRetries)%nat →
  actions db !! DocId (doc a) = Some da →
  isTerminal (Status da) = false →
  docID (action_Id a) = DocId (doc a) →
  localID (docID (Operation (doc a))) = Operation (doc a) →
  (∀ od, operations db !! docID (Operation (doc a)) = Some od →
         oDocId od = docID (Operation (doc a))
         ∧ (numCompleteOf (tasksOf db (Operation (doc a)))
            = Z.of_nat (length (tasksOf db (Operation (doc a)))) - 1 →
            isTerminal (oStatus od) = false)) →
  ∃ db',
    removeAndLog a finalStatus results message db
    = (Ok (newAction (finishedAction da finalStatus message results nowToTheSecond)),
       db').
Proof.
  intros Hmodel Hbudget Hda Hopen Hreread Hid Hparent.
  set (id := Operation (doc a)) in *.
  assert (Hfinish : ∀ parent ops,
    (∀ k, removeAndLog_buildTxn a finalStatus results message nowToTheSecond k
            parent db = (Ok ops, parent)) →
    forallb (checkOp db) ops = true →
    ∃ db', removeAndLog_with parent a finalStatus results message db
           = (Ok (newAction
                    (finishedAction da finalStatus message results nowToTheSecond)),
              db')).
  { intros parent ops Hbuild Hchecks.
    destruct (applyOps_checked ops db Hchecks) as [db1 Happ].
    destruct (finish_committed db db1 a finalStatus results message _ ops parent 0
                parent (Hbuild 0%nat) Happ) as (d & Hd & _ & Hacts & _).
    rewrite Hda in Hd. injection Hd as <-.
    exists db1. unfold removeAndLog_with, Run.
    rewrite (runAttempts_stable _ _ _ ops) by done.
    destruct nrRetries; [lia|]. rewrite Happ. f_equal.
    apply Model_Action_reread; [done|]. rewrite Hacts. apply lookup_insert_eq. }
  unfold removeAndLog. rewrite Hmodel. fold id.
  destruct (operations db !! docID id) as [od|] eqn:Hod.
  - destruct (Hparent od eq_refl) as [Hdoc Hlast].
    destruct (Model_Operation_fresh db id od Hid Hod Hdoc) as [Hp Hpid].
    rewrite Hp. eapply Hfinish.
    + intros k. apply removeAndLog_buildTxn_fresh. by rewrite Hpid.
    + cbn [forallb]. rewrite finish_check, Hda, Hopen.
      rewrite (updateOperationOp_check db _ finalStatus _ od);
        [done | by rewrite Hpid | done | done].
  - unfold Model_Operation. rewrite Hod. cbn [negb IsNotFound Cause].
    eapply Hfinish.
    + intros k. apply removeAndLog_buildTxn_orphan.
    + cbn [forallb]. by rewrite finish_check, Hda, Hopen.
Qed.

(** *** [EnqueueAction] *)

Lemma newActionDoc_fields operationID receiverTag actionName parameters v d ndoc :
  newActionDoc operationID receiverTag actionName parameters v = Ok (d, ndoc) →
  ∃ actionId,
    d = mkActionDoc (docID actionId) modelUUID (Id receiverTag) actionName
          parameters nowToTheSecond 0 0 operationID ActionPending "" [] []
    ∧ ndoc = mkActionNotificationDoc
               (docID (ensureActionMarker (Id receiverTag) +:+ actionId))
               modelUUID (Id receiverTag) actionId.
Proof.
  unfold newActionDoc.
  destruct (bool_decide (Kind receiverTag = UnitTagKind)
            && IsNewActionIDSupported v).
  - destruct (sequenceWithMin "task" 1) as [id|e]; [|done].
    intros [= <- <-]. by eexists.
  - destruct NewUUID as [u|e]; [|done]. intros [= <- <-]. by eexists.
Qed.

Lemma applyOps_enqueue_inv db db' c rid operationID d ndoc :
  applyOps (EnqueueAction_ops c rid operationID d ndoc) db = Some db' →
  (∃ l, entities db !! (c, rid) = Some l ∧ l ≠ Dead)
  ∧ is_Some (operations db !! docID operationID)
  ∧ actions db !! DocId d = None
  ∧ actionNotifications db !! nDocId ndoc = None
  ∧ db' = mkDatabase (<[DocId d := d]> (actions db))
            (<[nDocId ndoc := ndoc]> (actionNotifications db))
            (operations db) (entities db).
Proof.
  unfold applyOps, EnqueueAction_ops, checkOp.
  cbn [forallb opAssert opC opId viewDoc].
  destruct (entities db !! (c, rid)) as [l|] eqn:Hl; [|done].
  destruct (operations db !! docID operationID) as [od|] eqn:Hod;
    [|by rewrite andb_false_r].
  destruct (actions db !! DocId d) as [d0|] eqn:Hd;
    [by rewrite !andb_false_r|].
  destruct (actionNotifications db !! nDocId ndoc) as [n0|] eqn:Hn;
    [by rewrite !andb_false_r|].
  cbn [fmap option_fmap option_map checkAssertion vLife andb].
  destruct (bool_decide (Some l = Some Dead)) eqn:Hdead; [done|].
  cbn [negb]. intros [= <-].
  apply bool_decide_eq_false in Hdead.
  split; [exists l; split; [done | congruence]|].
  split; [done|]. split; [done|]. split; [done|].
  cbn [foldl applyOp opC opRemove opInsert opUpdate opId].
  rewrite Hd. cbn [withActions actionNotifications]. by rewrite Hn.
Qed.

Lemma applyOps_enqueue db c rid operationID d ndoc l :
  entities db !! (c, rid) = Some l →
  l ≠ Dead →
  is_Some (operations db !! docID operationID) →
  actions db !! DocId d = None →
  actionNotifications db !! nDocId ndoc = None →
  applyOps (EnqueueAction_ops c rid operationID d ndoc) db
  = Some (mkDatabase (<[DocId d := d]> (actions db))
            (<[nDocId ndoc := ndoc]> (actionNotifications db))
            (operations db) (entities db)).
Proof.
  intros Hl Hlive [od Hod] Hd Hn.
  unfold applyOps, EnqueueAction_ops, checkOp.
  cbn [forallb opAssert opC opId viewDoc].
  rewrite Hl, Hod, Hd, Hn.
  cbn [fmap option_fmap option_map checkAssertion vLife andb].
  rewrite bool_decide_eq_false_2 by congruence.
  cbn [negb foldl applyOp opC opRemove opInsert opUpdate opId].
  rewrite Hd. cbn [withActions actionNotifications]. by rewrite Hn.
Qed.

Lemma EnqueueAction_build_ops ops attempt live parent ops' :
  EnqueueAction_build ops attempt live parent = Ok ops' →
  attempt = 0%nat ∧ live = Ok true ∧ ops' = ops.
Proof.
  unfold EnqueueAction_build. destruct live as [[|]|e]; cbn [negb]; try done.
  case_bool_decide; cbn [negb]; [by intros [= <-]|].
  by destruct parent.
Qed.

Lemma EnqueueAction_committed operationID receiver actionName payload db act db' :
  EnqueueAction operationID receiver actionName payload db = (Ok act, db') →
  ∃ v d ndoc,
    AgentVersion = Ok v
    ∧ newActionDoc operationID receiver actionName payload v = Ok (d, ndoc)
    ∧ act = newAction d
    ∧ actions db !! DocId d = None
    ∧ actionNotifications db !! nDocId ndoc = None
    ∧ db' = mkDatabase (<[DocId d := d]> (actions db))
              (<[nDocId ndoc := ndoc]> (actionNotifications db))
              (operations db) (entities db).
Proof.
  unfold EnqueueAction. case_bool_decide; [done|].
  destruct (tagToCollectionAndId receiver) as [[c rid]|e]; [|done].
  destruct AgentVersion as [v|e]; [|done].
  destruct (newActionDoc operationID receiver actionName payload v)
    as [[d ndoc]|e] eqn:Hnew; [|done].
  unfold Run.
  destruct (runAttempts nrRetries 0 _ tt db) as [[[]|e] db1] eqn:Hrun; [|done].
  intros [= <- <-].
  apply runAttempts_committed in Hrun as (k & l0 & ops & l1 & Hbuild & Happ).
  unfold EnqueueAction_buildTxn in Hbuild.
  apply (f_equal fst) in Hbuild. cbn [fst] in Hbuild.
  apply EnqueueAction_build_ops in Hbuild as (_ & _ & ->).
  apply applyOps_enqueue_inv in Happ as (_ & _ & Hd & Hn & ->).
  by exists v, d, ndoc.
Qed.

Lemma EnqueueAction_succeeds operationID receiver actionName payload db
  c rid v d ndoc l :
  String.length actionName ≠ 0%nat →
  tagToCollectionAndId receiver = Ok (c, rid) →
  AgentVersion = Ok v →
  newActionDoc operationID receiver actionName payload v = Ok (d, ndoc) →
  (0 < nrRetries)%nat →
  entities db !! (c, rid) = Some l →
  l ≠ Dead →
  is_Some (operations db !! docID operationID) →
  actions db !! DocId d = None →
  actionNotifications db !! nDocId ndoc = None →
  EnqueueAction operationID receiver actionName payload db
  = (Ok (newAction d),
     mkDatabase (<[DocId d := d]> (actions db))
       (<[nDocId ndoc := ndoc]> (actionNotifications db))
       (operations db) (entities db)).
Proof.
  intros Hname Htag Hver Hnew Hbudget Hl Hlive Hop Hd Hn.
  unfold EnqueueAction. rewrite bool_decide_eq_false_2 by done.
  rewrite Htag, Hver, Hnew. unfold Run.
  destruct nrRetries as [|budget]; [lia|]. cbn [runAttempts].
  unfold EnqueueAction_buildTxn, EnqueueAction_build, isNotDead.
  rewrite Hl, bool_decide_eq_false_2 by done. cbn [negb].
  rewrite bool_decide_eq_true_2 by done. cbn [negb].
  by rewrite (applyOps_enqueue db c rid operationID d ndoc l).
Qed.

(** *** [Begin] and [Log] leave notifications and finality alone *)

Lemma sameFinality_refl db : sameFinality db db.
Proof. by split. Qed.

Lemma sameFinality_insert db db' k d d' :
  actions db !! k = Some d →
  isTerminal (Status d') = isTerminal (Status d) →
  actions db' = <[k := d']> (actions db) →
  actionNotifications db' = actionNotifications db →
  sameFinality db db'.
Proof.
  intros Hd Hsame Hacts Hn. split; [done|]. intros j. rewrite Hacts.
  destruct (decide (k = j)) as [<-|Hne].
  - rewrite lookup_insert_eq, Hd. cbn. by rewrite Hsame.
  - by rewrite lookup_insert_ne.
Qed.

Lemma Begin_buildTxn_shape a t k parent db ops l :
  Begin_buildTxn a t k parent db = (Ok ops, l) →
  ops = [beginActionOp a t] ∨ ∃ p, ops = [beginActionOp a t; beginOperationOp p t].
Proof.
  unfold Begin_buildTxn. destruct parent as [p|]; [|intros [= <- _]; by left].
  destruct (if (0 <? k)%nat then operation_Refresh db p else (p, None))
    as [p' [e|]].
  - destruct (negb (IsNotFound e)); [done|]. intros [= <- _]. by left.
  - case_bool_decide; intros [= <- _]; [right; by exists p' | by left].
Qed.

Lemma begin_committed db db' a t ops :
  ops = [beginActionOp a t] ∨ (∃ p, ops = [beginActionOp a t; beginOperationOp p t]) →
  applyOps ops db = Some db' →
  sameFinality db db'.
Proof.
  intros Hshape Happ.
  assert (∃ d, actions db !! DocId (doc a) = Some d ∧ Status d = ActionPending)
    as (d & Hd & Hs).
  { unfold applyOps in Happ.
    destruct (forallb (checkOp db) ops) eqn:Hc; [|done].
    assert (checkOp db (beginActionOp a t) = true) as Hchk.
    { destruct Hshape as [-> | [p ->]]; cbn [forallb] in Hc;
        by apply andb_prop in Hc as [? _]. }
    unfold checkOp in Hchk. cbn [beginActionOp opAssert opC opId viewDoc] in Hchk.
    destruct (actions db !! DocId (doc a)) as [d|]; [|done].
    exists d. split; [done|]. simpl in Hchk.
    apply bool_decide_eq_true in Hchk. congruence. }
  destruct Hshape as [-> | [p ->]].
  - rewrite (applyOps_begin_action db a t d Hd Hs) in Happ.
    injection Happ as <-.
    apply (sameFinality_insert db _ (DocId (doc a)) d (beganAction d t));
      [done | by rewrite Hs | done | done].
  - unfold applyOps in Happ.
    destruct (forallb (checkOp db) _); [|done]. injection Happ as <-.
    cbn [foldl applyOp beginActionOp beginOperationOp opC opRemove opInsert
         opUpdate opId].
    apply (sameFinality_insert db _ (DocId (doc a)) d (beganAction d t));
      [done | by rewrite Hs | | done].
    cbn [actions withActions withOperations].
    by rewrite (alter_alt_Some _ _ _ d Hd).
Qed.

Lemma Begin_with_sameFinality parent a db r db' :
  Begin_with parent a db = (r, db') → sameFinality db db'.
Proof.
  unfold Begin_with, Run.
  destruct (runAttempts nrRetries 0 _ parent db) as [[[]|e] db1] eqn:Hrun.
  - intros [= _ <-].
    apply runAttempts_committed in Hrun as (k & l0 & ops & l1 & Hbuild & Happ).
    apply Begin_buildTxn_shape in Hbuild. by apply (begin_committed db db1 a nowToTheSecond ops).
  - intros [= _ <-]. apply runAttempts_error_keeps_db in Hrun as ->.
    apply sameFinality_refl.
Qed.

Lemma Begin_sameFinality a db r db' :
  Begin a db = (r, db') → sameFinality db db'.
Proof.
  unfold Begin. destruct st_Model; [|intros [= _ <-]; apply sameFinality_refl].
  destruct (Model_Operation db (Operation (doc a))) as [p|e].
  - apply Begin_with_sameFinality.
  - destruct (negb (IsNotFound e)); [intros [= _ <-]; apply sameFinality_refl|].
    apply Begin_with_sameFinality.
Qed.

Lemma Log_buildTxn_shape message k a db ops l :
  Log_buildTxn message k a db = (Ok ops, l) → ∃ b, ops = [logOp b message].
Proof.
  unfold Log_buildTxn.
  destruct (if (0 <? k)%nat then _ else Ok a) as [b|e]; [|done].
  destruct (negb (bool_decide (action_Status b = ActionRunning))); [done|].
  intros [= <- _]. by exists b.
Qed.

Lemma log_committed db db' b message :
  applyOps [logOp b message] db = Some db' → sameFinality db db'.
Proof.
  intros Happ.
  destruct (actions db !! DocId (doc b)) as [d|] eqn:Hd.
  - destruct (decide (Status d = ActionRunning)) as [Hs|Hs].
    + rewrite (applyOps_log db b message d Hd Hs) in Happ. injection Happ as <-.
      by apply (sameFinality_insert db _ (DocId (doc b)) d
                  (pushActionMessage (mkActionMessage message nowToTheSecond) d)).
    + by rewrite (applyOps_log_refused db b message d Hd Hs) in Happ.
  - unfold applyOps, checkOp in Happ.
    cbn [forallb logOp opAssert opC opId viewDoc] in Happ.
    by rewrite Hd in Happ.
Qed.

Lemma Log_sameFinality a message db r db' :
  Log a message db = (r, db') → sameFinality db db'.
Proof.
  unfold Log.
  destruct (1000 <? length (Logs (doc a)))%nat;
    [intros [= _ <-]; apply sameFinality_refl|].
  destruct st_Model; [|intros [= _ <-]; apply sameFinality_refl].
  unfold Run.
  destruct (runAttempts nrRetries 0 _ a db) as [[[]|e] db1] eqn:Hrun.
  - intros [= _ <-].
    apply runAttempts_committed in Hrun as (k & l0 & ops & l1 & Hbuild & Happ).
    apply Log_buildTxn_shape in Hbuild as [b ->]. by apply log_committed in Happ.
  - intros [= _ <-]. apply runAttempts_error_keeps_db in Hrun as ->.
    apply sameFinality_refl.
Qed.

(** *** The notification follows the action *)

Lemma notificationTracks_sameFinality db db' a :
  sameFinality db db' → notificationTracks db a → notificationTracks db' a.
Proof.
  intros [Hn Hfin] Htracks. unfold notificationTracks in *. rewrite Hn, Htracks.
  specialize (Hfin (DocId (doc a))).
  destruct (actions db' !! DocId (doc a)) as [d'|],
           (actions db !! DocId (doc a)) as [d|]; cbn in Hfin; try done.
  injection Hfin as Hfin. split; intros (? & [= <-] & Ht); eexists;
    (split; [done | congruence]).
Qed.

Lemma notificationTracks_elsewhere db db' a :
  actions db' !! DocId (doc a) = actions db !! DocId (doc a) →
  actionNotifications db' !! notificationId a
  = actionNotifications db !! notificationId a →
  notificationTracks db a → notificationTracks db' a.
Proof. unfold notificationTracks. by intros -> ->. Qed.

Lemma removeAndLog_with_effect parent a finalStatus results message db r db' :
  removeAndLog_with parent a finalStatus results message db = (r, db') →
  db' = db
  ∨ ∃ d, actions db !! DocId (doc a) = Some d
         ∧ isTerminal (Status d) = false
         ∧ actions db'
           = <[DocId (doc a) :=
                 finishedAction d finalStatus message results nowToTheSecond]>
               (actions db)
         ∧ actionNotifications db'
           = delete (notificationId a) (actionNotifications db).
Proof.
  unfold removeAndLog_with, Run.
  destruct (runAttempts nrRetries 0 _ parent db) as [[[]|e] db1] eqn:Hrun.
  - intros [= _ <-]. right.
    apply runAttempts_committed in Hrun as (k & l0 & ops & l1 & Hbuild & Happ).
    destruct (finish_committed db db1 a finalStatus results message _ ops l1 k l0
                Hbuild Happ) as (d & ? & ? & ? & ? & _).
    by exists d.
  - intros [= _ <-]. left. by apply runAttempts_error_keeps_db in Hrun.
Qed.

Lemma removeAndLog_effect a finalStatus results message db r db' :
  removeAndLog a finalStatus results message db = (r, db') →
  db' = db
  ∨ ∃ d, actions db !! DocId (doc a) = Some d
         ∧ isTerminal (Status d) = false
         ∧ actions db'
           = <[DocId (doc a) :=
                 finishedAction d finalStatus message results nowToTheSecond]>
               (actions db)
         ∧ actionNotifications db'
           = delete (notificationId a) (actionNotifications db).
Proof.
  unfold removeAndLog. destruct st_Model; [|intros [= _ <-]; by left].
  destruct (Model_Operation db (Operation (doc a))) as [p|e].
  - apply removeAndLog_with_effect.
  - destruct (negb (IsNotFound e)); [intros [= _ <-]; by left|].
    apply removeAndLog_with_effect.
Qed.

Lemma EnqueueAction_effect operationID receiver actionName payload db r db' :
  EnqueueAction operationID receiver actionName payload db = (r, db') →
  db' = db
  ∨ ∃ d ndoc,
      actions db !! DocId d = None
      ∧ actionNotifications db !! nDocId ndoc = None
      ∧ actions db' = <[DocId d := d]> (actions db)
      ∧ actionNotifications db' = <[nDocId ndoc := ndoc]> (actionNotifications db).
Proof.
  destruct r as [act|e].
  - intros Hen. right.
    apply EnqueueAction_committed in Hen as (v & d & ndoc & _ & _ & _ & ? & ? & ->).
    by exists d, ndoc.
  - unfold EnqueueAction. case_bool_decide; [intros [= _ <-]; by left|].
    destruct (tagToCollectionAndId receiver) as [[c rid]|e0];
      [|intros [= _ <-]; by left].
    destruct AgentVersion as [v|e0]; [|intros [= _ <-]; by left].
    destruct (newActionDoc operationID receiver actionName payload v)
      as [[d ndoc]|e0]; [|intros [= _ <-]; by left].
    unfold Run.
    destruct (runAttempts nrRetries 0 _ tt db) as [[[]|e1] db1] eqn:Hrun; [done|].
    intros [= _ <-]. left. by apply runAttempts_error_keeps_db in Hrun.
Qed.

Lemma finished_tracks a finalStatus results message db r db' :
  isTerminal finalStatus = true →
  removeAndLog a finalStatus results message db = (Ok r, db') →
  actionNotifications db' !! notificationId a = None
  ∧ (∃ d, actions db' !! DocId (doc a) = Some d ∧ Status d = finalStatus)
  ∧ notificationTracks db' a.
Proof.
  intros Hfinal Hrun.
  apply removeAndLog_committed in Hrun as (d & Hd & Hopen & Hacts & Hn & _).
  assert (Hgone : actionNotifications db' !! notificationId a = None)
    by (rewrite Hn; apply lookup_delete_eq).
  assert (Hdone : actions db' !! DocId (doc a)
                  = Some (finishedAction d finalStatus message results
                            nowToTheSecond))
    by (rewrite Hacts; apply lookup_insert_eq).
  split; [done|]. split; [by eexists|].
  unfold notificationTracks. rewrite Hgone, Hdone. split.
  - by intros [? [=]].
  - intros (? & [= <-] & Ht). cbn in Ht. congruence.
Qed.

Lemma enqueued_tracks operationID receiver actionName payload db act db' :
  (∀ x, localID (docID x) = x) →
  EnqueueAction operationID receiver actionName payload db = (Ok act, db') →
  is_Some (actionNotifications db' !! notificationId act)
  ∧ (∃ d, actions db' !! DocId (doc act) = Some d ∧ Status d = ActionPending)
  ∧ notificationTracks db' act.
Proof.
  intros Hlocal Hen.
  apply EnqueueAction_committed in Hen
    as (v & d & ndoc & _ & Hnew & -> & _ & _ & ->).
  apply newActionDoc_fields in Hnew as (actionId & -> & ->).
  assert (Hnid : notificationId
                   (newAction
                      (mkActionDoc (docID actionId) modelUUID (Id receiver)
                         actionName payload nowToTheSecond 0 0 operationID
                         ActionPending "" [] []))
                 = docID (ensureActionMarker (Id receiver) +:+ actionId)).
  { unfold notificationId, action_Receiver, action_Id. cbn [doc Receiver DocId].
    by rewrite Hlocal. }
  unfold notificationTracks. rewrite Hnid.
  cbn [doc DocId nDocId actions actionNotifications].
  rewrite !lookup_insert_eq.
  split; [by eexists|]. split; [by eexists|]. split; [|by eexists].
  intros _. by eexists.
Qed.

(** C5: every transaction of [Finish] starts with an update of the action
    guarded by the assertion that its status is none of Completed,
    Cancelled and Failed, followed by the removal of its notification.
    So a Finish of an action that is already terminal returns an error
    and leaves the database as it is, and a Finish that commits has set
    status, message, results and completion stamp of an action that was
    not terminal and has removed its notification, all in one
    transaction; on an action that is not terminal it does commit (the
    only other obstacle being a parent operation that is already
    terminal when its last task finishes).  The notification therefore
    follows the action: after a committed enqueue the action is pending
    and its notification is there, after a committed Finish with a
    terminal status the action is terminal and its notification is gone,
    and [Begin], [Log] and the transitions of other actions change
    neither side. *)
Theorem C5_finish_guard_and_notification
  (a : action) (results : ActionResults) (db : Database) (da : actionDoc) :
  actions db !! DocId (doc a) = Some da →
  (∀ k parent, ∃ l',
     removeAndLog_buildTxn a (arStatus results) (arResults results)
       (arMessage results) nowToTheSecond k parent db
     = (Ok [finishActionOp a (arStatus results) (arResults results)
              (arMessage results) nowToTheSecond;
            removeNotificationOp a], l')
     ∨ ∃ p,
         removeAndLog_buildTxn a (arStatus results) (arResults results)
           (arMessage results) nowToTheSecond k parent db
         = (Ok [finishActionOp a (arStatus results) (arResults results)
                  (arMessage results) nowToTheSecond;
                removeNotificationOp a;
                updateOperationOp p (arStatus results) nowToTheSecond], l'))
  ∧ opAssert (finishActionOp a (arStatus results) (arResults results)
                (arMessage results) nowToTheSecond)
    = AssertStatusNin [ActionCompleted; ActionCancelled; ActionFailed]
  ∧ (isTerminal (Status da) = true → ∃ e, Finish a results db = (Err e, db))
  ∧ (∀ r db', Finish a results db = (Ok r, db') →
       isTerminal (Status da) = false
       ∧ actions db'
         = <[DocId (doc a) :=
               finishedAction da (arStatus results) (arMessage results)
                 (arResults results) nowToTheSecond]> (actions db)
       ∧ actionNotifications db' = delete (notificationId a) (actionNotifications db)
       ∧ (isTerminal (arStatus results) = true → notificationTracks db' a))
  ∧ (isTerminal (Status da) = false →
     st_Model = Ok tt →
     (0 < nrRetries)%nat →
     docID (action_Id a) = DocId (doc a) →
     localID (docID (Operation (doc a))) = Operation (doc a) →
     (∀ od, operations db !! docID (Operation (doc a)) = Some od →
            oDocId od = docID (Operation (doc a))
            ∧ (numCompleteOf (tasksOf db (Operation (doc a)))
               = Z.of_nat (length (tasksOf db (Operation (doc a)))) - 1 →
               isTerminal (oStatus od) = false)) →
     ∃ db',
       Finish a results db
       = (Ok (newAction (finishedAction da (arStatus results) (arMessage results)
                           (arResults results) nowToTheSecond)), db'))
  ∧ (∀ operationID receiver actionName payload db0 act db1,
       (∀ x, localID (docID x) = x) →
       EnqueueAction operationID receiver actionName payload db0 = (Ok act, db1) →
       is_Some (actionNotifications db1 !! notificationId act)
       ∧ (∃ d, actions db1 !! DocId (doc act) = Some d ∧ Status d = ActionPending)
       ∧ notificationTracks db1 act)
  ∧ (∀ b db0 r db1,
       Begin b db0 = (r, db1) →
       notificationTracks db0 a → notificationTracks db1 a)
  ∧ (∀ b message db0 r db1,
       Log b message db0 = (r, db1) →
       notificationTracks db0 a → notificationTracks db1 a)
  ∧ (∀ b results' db0 r db1,
       Finish b results' db0 = (r, db1) →
       DocId (doc b) ≠ DocId (doc a) →
       notificationId b ≠ notificationId a →
       notificationTracks db0 a → notificationTracks db1 a)
  ∧ (∀ operationID receiver actionName payload db0 r db1,
       EnqueueAction operationID receiver actionName payload db0 = (r, db1) →
       is_Some (actions db0 !! DocId (doc a)) →
       is_Some (actionNotifications db0 !! notificationId a) →
       notificationTracks db0 a → notificationTracks db1 a).
Proof.
  intros Hda.
  split; [intros; apply removeAndLog_buildTxn_shape|].
  split; [done|].
  split.
  { intros Hterm. apply removeAndLog_refused. intros d Hd.
    rewrite Hda in Hd. by injection Hd as <-. }
  split.
  { intros r db' Hrun. unfold Finish in Hrun.
    pose proof (removeAndLog_committed _ _ _ _ _ _ _ Hrun)
      as (d & Hd & Hopen & Hacts & Hn & _).
    rewrite Hda in Hd. injection Hd as <-.
    split; [done|]. split; [done|]. split; [done|].
    intros Hfinal. by apply (finished_tracks _ _ _ _ _ _ _ Hfinal Hrun). }
  split.
  { intros Hopen Hmodel Hbudget Hreread Hid Hparent.
    by apply removeAndLog_succeeds. }
  split.
  { intros operationID receiver actionName payload db0 act db1 Hlocal Hen.
    by apply (enqueued_tracks operationID receiver actionName payload db0). }
  split.
  { intros b db0 r db1 Hbegin.
    apply notificationTracks_sameFinality. by apply Begin_sameFinality in Hbegin. }
  split.
  { intros b message db0 r db1 Hlog.
    apply notificationTracks_sameFinality. by apply Log_sameFinality in Hlog. }
  split.
  { intros b results' db0 r db1 Hfin Hdoc Hnid. unfold Finish in Hfin.
    apply removeAndLog_effect in Hfin as [-> | (d & _ & _ & Hacts & Hn)]; [done|].
    apply notificationTracks_elsewhere.
    - rewrite Hacts. by apply lookup_insert_ne.
    - rewrite Hn. by apply lookup_delete_ne. }
  intros operationID receiver actionName payload db0 r db1 Hen [d0 Hd0] [n0 Hn0].
  apply EnqueueAction_effect in Hen as [-> | (d & ndoc & Hd & Hn & Hacts & Hns)];
    [done|].
  apply notificationTracks_elsewhere.
  - rewrite Hacts. apply lookup_insert_ne. congruence.
  - rewrite Hns. apply lookup_insert_ne. congruence.
Qed.

(** *** The id allocator *)

Lemma EnqueueAction_allocation_failure operationID receiver actionName payload
  db c rid v e :
  String.length actionName ≠ 0%nat →
  tagToCollectionAndId receiver = Ok (c, rid) →
  AgentVersion = Ok v →
  newActionDoc operationID receiver actionName payload v = Err e →
  EnqueueAction operationID receiver actionName payload db = (Err (Traced e), db).
Proof.
  intros Hname Htag Hver Hnew. unfold EnqueueAction.
  rewrite bool_decide_eq_false_2 by done. by rewrite Htag, Hver, Hnew.
Qed.

(** C6: for a unit tag under an agent version that [IsNewActionIDSupported]
    accepts (one that compares at least equal to 2.6.999) the id of the
    new action is the value the sequence "task" with minimum 1 hands
    out, in decimal; for any other tag or version it is the string of a
    new UUID.  The documents are keyed by that id.  When the source of
    the id fails, [newActionDoc] fails with that error and the enqueue
    returns it, traced, without touching the database. *)
Theorem C6_action_id_allocation
  (operationID : string) (receiverTag : names_Tag) (actionName : string)
  (parameters : Payload) (ver : Number) :
  (IsNewActionIDSupported ver = true
   ↔ 0 ≤ Compare ver (mkNumber 2 6 "" 999 0))
  ∧ (Kind receiverTag = "unit" → IsNewActionIDSupported ver = true →
     (∀ id, sequenceWithMin "task" 1 = Ok id →
        newActionDoc operationID receiverTag actionName parameters ver
        = Ok (mkActionDoc (docID (Itoa id)) modelUUID (Id receiverTag) actionName
                parameters nowToTheSecond 0 0 operationID ActionPending "" [] [],
              mkActionNotificationDoc
                (docID (ensureActionMarker (Id receiverTag) +:+ Itoa id))
                modelUUID (Id receiverTag) (Itoa id)))
     ∧ (∀ e, sequenceWithMin "task" 1 = Err e →
          newActionDoc operationID receiverTag actionName parameters ver = Err e))
  ∧ (Kind receiverTag ≠ "unit" ∨ IsNewActionIDSupported ver = false →
     (∀ u, NewUUID = Ok u →
        newActionDoc operationID receiverTag actionName parameters ver
        = Ok (mkActionDoc (docID (UUID_String u)) modelUUID (Id receiverTag)
                actionName parameters nowToTheSecond 0 0 operationID
                ActionPending "" [] [],
              mkActionNotificationDoc
                (docID (ensureActionMarker (Id receiverTag) +:+ UUID_String u))
                modelUUID (Id receiverTag) (UUID_String u)))
     ∧ (∀ e, NewUUID = Err e →
          newActionDoc operationID receiverTag actionName parameters ver = Err e))
  ∧ (∀ db c rid e,
       String.length actionName ≠ 0%nat →
       tagToCollectionAndId receiverTag = Ok (c, rid) →
       AgentVersion = Ok ver →
       newActionDoc operationID receiverTag actionName parameters ver = Err e →
       EnqueueAction operationID receiverTag actionName parameters db
       = (Err (Traced e), db) ∧ Cause (Traced e) = Cause e)
  ∧ Itoa 1 = "1" ∧ Itoa 27 = "27".
Proof.
  split; [unfold IsNewActionIDSupported, MinVersionSupportNewActionID;
          apply Z.leb_le|].
  split.
  { intros Hkind Hsup. unfold newActionDoc, UnitTagKind.
    rewrite bool_decide_eq_true_2, Hsup by done. cbn [andb].
    split; [intros id -> | intros e ->]; done. }
  split.
  { intros Hother. unfold newActionDoc, UnitTagKind.
    assert (bool_decide (Kind receiverTag = "unit")
            && IsNewActionIDSupported ver = false) as ->.
    { destruct Hother as [Hk | ->]; [|apply andb_false_r].
      by rewrite bool_decide_eq_false_2. }
    split; [intros u -> | intros e ->]; done. }
  split; [|done].
  intros db c rid e Hname Htag Hver Hnew. split; [|done].
  by apply EnqueueAction_allocation_failure with c rid ver.
Qed.

(** *** [FindActionTagsById] *)

Lemma ContainsAny_spec (s chars : string) :
  ContainsAny s chars = true
  ↔ ∃ c, c ∈ String.list_ascii_of_string s
         ∧ c ∈ String.list_ascii_of_string chars.
Proof.
  induction s as [|c0 s IH]; cbn [ContainsAny String.list_ascii_of_string].
  - split; [done|]. intros (c & Hc & _). by apply elem_of_nil in Hc.
  - rewrite orb_true_iff, IH, existsb_exists. split.
    + intros [(x & Hx & Heq) | (c & Hc & Hchars)].
      * apply bool_decide_eq_true in Heq as ->. exists c0. split; [left|].
        by apply list_elem_of_In.
      * exists c. split; [by right | done].
    + intros (c & Hc & Hchars). apply elem_of_cons in Hc as [-> | Hc].
      * left. exists c0. split; [by apply list_elem_of_In|].
        by apply bool_decide_eq_true.
      * right. by exists c.
Qed.

Lemma collectTags_acc (ids : list string) (acc : list ActionTag) :
  foldl (λ results id,
           let localID := localID id in
           if IsValidAction localID then results ++ [NewActionTag localID]
           else results)
        acc ids
  = acc ++ (NewActionTag <$> List.filter IsValidAction (localID <$> ids)).
Proof.
  revert acc. induction ids as [|id ids IH]; intros acc; cbn.
  - by rewrite app_nil_r.
  - rewrite IH. destruct (IsValidAction (localID id)); cbn; [|done].
    by rewrite <- app_assoc.
Qed.

Lemma collectTags_eq (ids : list string) :
  collectTags ids = NewActionTag <$> List.filter IsValidAction (localID <$> ids).
Proof. unfold collectTags. by rewrite collectTags_acc. Qed.

Lemma Find_ids_spec db f id :
  id ∈ Find_ids db f ↔ is_Some (actions db !! id) ∧ matchesFilter f id = true.
Proof.
  unfold Find_ids. rewrite list_elem_of_fmap. split.
  - intros ([k d] & -> & Hin). apply elem_of_map_to_list in Hin.
    apply map_lookup_filter_Some in Hin as [Hk Hm]. cbn in *.
    split; [by eexists | by apply Is_true_true].
  - intros [[d Hd] Hm]. exists (id, d). split; [done|].
    apply elem_of_map_to_list, map_lookup_filter_Some. split; [done|].
    cbn. by apply Is_true_true.
Qed.

(** C7: the query matches ids against the pattern [^] followed by the
    document id of the queried value when the agent version does not
    support the new ids or when the queried value contains one of the
    characters of "-abcdef", whatever the version; otherwise it matches
    the document id itself.  The tags returned are those of the selected
    documents whose local id passes [IsValidAction], and of no other. *)
Theorem C7_find_action_tags_by_id (ver : Number) (idValue : string) :
  (IsNewActionIDSupported ver = false ∨ ContainsAny idValue "-abcdef" = true →
   FindActionTagsById_filter ver idValue = FilterIdRegex ("^" +:+ docID idValue))
  ∧ (IsNewActionIDSupported ver = true → ContainsAny idValue "-abcdef" = false →
     FindActionTagsById_filter ver idValue = FilterIdIs (docID idValue))
  ∧ (ContainsAny idValue "-abcdef" = true
     ↔ ∃ c, c ∈ String.list_ascii_of_string idValue
            ∧ c ∈ String.list_ascii_of_string "-abcdef")
  ∧ (∀ pattern id, matchesFilter (FilterIdRegex pattern) id = regexMatch pattern id)
  ∧ (∀ matchValue id, matchesFilter (FilterIdIs matchValue) id = true ↔ id = matchValue)
  ∧ (∀ db tag,
       AgentVersion = Ok ver →
       ∃ tags,
         FindActionTagsById db idValue = Ok tags
         ∧ (tag ∈ tags
            ↔ ∃ id, is_Some (actions db !! id)
                    ∧ matchesFilter (FindActionTagsById_filter ver idValue) id = true
                    ∧ IsValidAction (localID id) = true
                    ∧ tag = NewActionTag (localID id))
         ∧ Forall (λ t, IsValidAction (ActionTag_Id t) = true) tags)
  ∧ (∀ db err, AgentVersion = Err err →
       FindActionTagsById db idValue = Err (Traced err)).
Proof.
  split.
  { intros Hold. unfold FindActionTagsById_filter.
    destruct Hold as [-> | ->]; [done | by rewrite orb_true_r]. }
  split; [intros Hnew Hno; unfold FindActionTagsById_filter; by rewrite Hnew, Hno|].
  split; [apply ContainsAny_spec|].
  split; [done|].
  split; [intros matchValue id; cbn; apply bool_decide_eq_true|].
  split; [|intros db err Herr; unfold FindActionTagsById; by rewrite Herr].
  intros db tag Hver. unfold FindActionTagsById. rewrite Hver.
  eexists. split; [done|]. rewrite collectTags_eq. split.
  - rewrite list_elem_of_fmap. split.
    + intros (lid & -> & Hin). apply list_elem_of_In, filter_In in Hin as [Hin Hvalid].
      apply list_elem_of_In, list_elem_of_fmap in Hin as (id & -> & Hid).
      apply Find_ids_spec in Hid as [Hsome Hmatch]. by exists id.
    + intros (id & Hsome & Hmatch & Hvalid & ->). exists (localID id).
      split; [done|]. apply list_elem_of_In, filter_In. split; [|done].
      apply list_elem_of_In, list_elem_of_fmap. exists id. split; [done|].
      by apply Find_ids_spec.
  - apply Forall_forall. intros t Ht.
    apply list_elem_of_fmap in Ht as (lid & -> & Hin).
    by apply list_elem_of_In, filter_In in Hin as [_ Hvalid].
Qed.

(** *** Lookups and orphans *)

Lemma Begin_orphan a db :
  st_Model = Ok tt →
  operations db !! docID (Operation (doc a)) = None →
  Begin a db
  = match nrRetries, applyOps [beginActionOp a nowToTheSecond] db with
    | S _, Some db1 => (Model_Action db1 (action_Id a), db1)
    | _, _ => (Err (Traced ErrExcessiveContention), db)
    end.
Proof.
  intros Hmodel Hop. unfold Begin, Model_Operation. rewrite Hmodel, Hop.
  cbn [negb IsNotFound Cause]. unfold Begin_with, Run.
  rewrite (runAttempts_stable _ _ _ [beginActionOp a nowToTheSecond])
    by (intros k; apply Begin_buildTxn_orphan).
  destruct nrRetries; [done|]. by destruct (applyOps _ db).
Qed.

Lemma removeAndLog_orphan a finalStatus results message db :
  st_Model = Ok tt →
  operations db !! docID (Operation (doc a)) = None →
  removeAndLog a finalStatus results message db
  = match nrRetries,
          applyOps [finishActionOp a finalStatus results message nowToTheSecond;
                    removeNotificationOp a] db with
    | S _, Some db1 => (Model_Action db1 (action_Id a), db1)
    | _, _ => (Err (Traced ErrExcessiveContention), db)
    end.
Proof.
  intros Hmodel Hop. unfold removeAndLog, Model_Operation. rewrite Hmodel, Hop.
  cbn [negb IsNotFound Cause]. unfold removeAndLog_with, Run.
  rewrite (runAttempts_stable _ _ _
             [finishActionOp a finalStatus results message nowToTheSecond;
              removeNotificationOp a])
    by (intros k; apply removeAndLog_buildTxn_orphan).
  destruct nrRetries; [done|]. by destruct (applyOps _ db).
Qed.

Lemma applyOps_begin_action_inv db db' a t :
  applyOps [beginActionOp a t] db = Some db' →
  ∃ d, actions db !! DocId (doc a) = Some d
       ∧ Status d = ActionPending
       ∧ db' = withActions db (<[DocId (doc a) := beganAction d t]> (actions db)).
Proof.
  intros Happ.
  destruct (actions db !! DocId (doc a)) as [d|] eqn:Hd.
  - destruct (decide (Status d = ActionPending)) as [Hs|Hs].
    + rewrite (applyOps_begin_action db a t d Hd Hs) in Happ.
      injection Happ as <-. by exists d.
    + by rewrite (applyOps_begin_refused db a t d [] Hd Hs) in Happ.
  - unfold applyOps, checkOp in Happ.
    cbn [forallb beginActionOp opAssert opC opId viewDoc] in Happ.
    by rewrite Hd in Happ.
Qed.

Lemma applyOps_finish_orphan db a finalStatus results message t d :
  actions db !! DocId (doc a) = Some d →
  isTerminal (Status d) = false →
  applyOps [finishActionOp a finalStatus results message t;
            removeNotificationOp a] db
  = Some (mkDatabase
            (<[DocId (doc a) := finishedAction d finalStatus message results t]>
               (actions db))
            (delete (notificationId a) (actionNotifications db))
            (operations db) (entities db)).
Proof.
  intros Hd Hopen. unfold applyOps. cbn [forallb].
  rewrite finish_check, Hd, Hopen.
  cbn [negb andb checkOp removeNotificationOp opAssert checkAssertion].
  cbn [foldl applyOp finishActionOp removeNotificationOp opC opRemove opInsert
       opUpdate opId].
  unfold withNotifications, withActions.
  cbn [actions actionNotifications operations entities].
  by rewrite (alter_alt_Some _ _ _ d Hd), finished_action_eq.
Qed.

(** C9: looking an action up by an id under which nothing is stored
    yields the not-found error, which [IsNotFound] tells from the other
    failures of the query: those come back annotated and keep their
    cause.  When the lookup of the parent operation of an action reports
    not-found, [Begin] and [Finish] go on without it: their transactions
    hold only the operations on the action's own documents, a committed
    Begin changes only the action's document and a committed Finish the
    action's document and its notification, and they do commit on an
    action that is pending, respectively not terminal. *)
Theorem C9_not_found_is_distinct_and_orphans_proceed (a : action) (db : Database) :
  st_Model = Ok tt →
  operations db !! docID (Operation (doc a)) = None →
  (∀ db0 id, actions db0 !! docID id = None →
     Model_Action db0 id = Err (NotFoundf "action" id)
     ∧ IsNotFound (NotFoundf "action" id) = true)
  ∧ (∀ db0 id d, actions db0 !! docID id = Some d →
       Model_Action db0 id = Ok (newAction d))
  ∧ (∀ err id, err ≠ mgoErrNotFound →
       Action_of (Err err) id = Err (Annotatef err "cannot get action" id)
       ∧ Cause (Annotatef err "cannot get action" id) = Cause err
       ∧ IsNotFound (Annotatef err "cannot get action" id) = IsNotFound err)
  ∧ (∃ e, Model_Operation db (Operation (doc a)) = Err e ∧ IsNotFound e = true)
  ∧ (∀ t k, Begin_buildTxn a t k None db = (Ok [beginActionOp a t], None))
  ∧ (∀ finalStatus results message t k,
       removeAndLog_buildTxn a finalStatus results message t k None db
       = (Ok [finishActionOp a finalStatus results message t;
              removeNotificationOp a], None))
  ∧ (∀ r db', Begin a db = (r, db') →
       db' = db
       ∨ ∃ d, actions db !! DocId (doc a) = Some d
              ∧ db' = mkDatabase
                        (<[DocId (doc a) := beganAction d nowToTheSecond]>
                           (actions db))
                        (actionNotifications db) (operations db) (entities db))
  ∧ (∀ results r db', Finish a results db = (r, db') →
       db' = db
       ∨ ∃ d, actions db !! DocId (doc a) = Some d
              ∧ db' = mkDatabase
                        (<[DocId (doc a) :=
                             finishedAction d (arStatus results) (arMessage results)
                               (arResults results) nowToTheSecond]> (actions db))
                        (delete (notificationId a) (actionNotifications db))
                        (operations db) (entities db))
  ∧ (∀ d, actions db !! DocId (doc a) = Some d →
       (0 < nrRetries)%nat →
       docID (action_Id a) = DocId (doc a) →
       (Status d = ActionPending →
        Begin a db
        = (Ok (newAction (beganAction d nowToTheSecond)),
           mkDatabase
             (<[DocId (doc a) := beganAction d nowToTheSecond]> (actions db))
             (actionNotifications db) (operations db) (entities db)))
       ∧ (∀ results, isTerminal (Status d) = false →
          Finish a results db
          = (Ok (newAction (finishedAction d (arStatus results) (arMessage results)
                              (arResults results) nowToTheSecond)),
             mkDatabase
               (<[DocId (doc a) :=
                    finishedAction d (arStatus results) (arMessage results)
                      (arResults results) nowToTheSecond]> (actions db))
               (delete (notificationId a) (actionNotifications db))
               (operations db) (entities db)))).
Proof.
  intros Hmodel Hop.
  split.
  { intros db0 id Hnone. unfold Model_Action, FindId_One. by rewrite Hnone. }
  split.
  { intros db0 id d Hsome. unfold Model_Action, FindId_One. by rewrite Hsome. }
  split; [intros err id Hne; by destruct err|].
  split; [unfold Model_Operation; rewrite Hop; by eexists|].
  split; [intros; apply Begin_buildTxn_orphan|].
  split; [intros; apply removeAndLog_buildTxn_orphan|].
  split.
  { intros r db'. rewrite (Begin_orphan a db Hmodel Hop).
    destruct nrRetries; [intros [= _ <-]; by left|].
    destruct (applyOps _ db) as [db1|] eqn:Happ; [|intros [= _ <-]; by left].
    intros [= _ <-]. right.
    apply applyOps_begin_action_inv in Happ as (d & Hd & _ & ->). by exists d. }
  split.
  { intros results r db'. unfold Finish.
    rewrite (removeAndLog_orphan a _ _ _ db Hmodel Hop).
    destruct nrRetries; [intros [= _ <-]; by left|].
    destruct (applyOps _ db) as [db1|] eqn:Happ; [|intros [= _ <-]; by left].
    intros [= _ <-]. right.
    pose proof (applyOps_two _ _ _ _ _ _ Happ) as [Hchk _].
    apply check_status_nin_action in Hchk as (d & Hd & Hnin).
    exists d. split; [done|].
    rewrite (applyOps_finish_orphan db a _ _ _ _ d Hd) in Happ;
      [by injection Happ as <-|].
    unfold isTerminal. apply bool_decide_eq_false. set_solver. }
  intros d Hd Hbudget Hreread. split.
  - intros Hpending. rewrite (Begin_orphan a db Hmodel Hop).
    destruct nrRetries; [lia|].
    rewrite (applyOps_begin_action db a _ d Hd Hpending). f_equal.
    apply Model_Action_reread; [done | apply lookup_insert_eq].
  - intros results Hopen. unfold Finish.
    rewrite (removeAndLog_orphan a _ _ _ db Hmodel Hop).
    destruct nrRetries; [lia|].
    rewrite (applyOps_finish_orphan db a _ _ _ _ d Hd Hopen). f_equal.
    apply Model_Action_reread; [done | apply lookup_insert_eq].
Qed.

(** *** [EnqueueAction] does not retry *)

Lemma EnqueueAction_build_later ops attempt live parent :
  attempt ≠ 0%nat →
  EnqueueAction_build ops attempt live parent
  = Err match live with
        | Err err => err
        | Ok false => ErrDead
        | Ok true =>
            match parent with
            | Err err => Traced err
            | Ok _ => Errorf_unexpected_attempt attempt
            end
        end.
Proof.
  intros Hne. unfold EnqueueAction_build.
  destruct live as [[|]|e]; cbn [negb]; try done.
  rewrite bool_decide_eq_false_2 by done. cbn [negb]. by destruct parent.
Qed.

Lemma EnqueueAction_aborted operationID receiver actionName payload db
  c rid v d ndoc :
  String.length actionName ≠ 0%nat →
  tagToCollectionAndId receiver = Ok (c, rid) →
  AgentVersion = Ok v →
  newActionDoc operationID receiver actionName payload v = Ok (d, ndoc) →
  applyOps (EnqueueAction_ops c rid operationID d ndoc) db = None →
  EnqueueAction operationID receiver actionName payload db
  = (Err match nrRetries with
         | O => ErrExcessiveContention
         | S budget =>
             match isNotDead db c rid with
             | Err err => err
             | Ok false => ErrDead
             | Ok true =>
                 match budget with
                 | O => ErrExcessiveContention
                 | S _ =>
                     match Model_Operation db operationID with
                     | Err err => Traced err
                     | Ok _ => Errorf_unexpected_attempt 1
                     end
                 end
             end
         end, db).
Proof.
  intros Hname Htag Hver Hnew Habort. unfold EnqueueAction.
  rewrite bool_decide_eq_false_2 by done. rewrite Htag, Hver, Hnew.
  unfold Run. destruct nrRetries as [|budget]; [done|]. cbn [runAttempts].
  unfold EnqueueAction_buildTxn at 1.
  destruct (isNotDead db c rid) as [[|]|e] eqn:Hlive;
    unfold EnqueueAction_build at 1; cbn [negb]; try done.
  rewrite bool_decide_eq_true_2 by done. cbn [negb]. cbv beta iota.
  rewrite Habort. destruct budget as [|budget]; [done|]. cbn [runAttempts].
  unfold EnqueueAction_buildTxn at 1.
  rewrite EnqueueAction_build_later, Hlive by done.
  by destruct (Model_Operation db operationID).
Qed.

(** C10: the builder of [EnqueueAction] hands out its insert operations
    on attempt 0 only, and only for a receiver that is not dead; on any
    later attempt it returns an error: the error of the liveness check
    if that fails, [ErrDead] if the receiver is dead, the traced error
    of the operation lookup if the parent operation cannot be read
    (not-found when it is gone), and the unexpected-attempt error
    otherwise.  So an enqueue whose transaction is aborted returns an
    error and inserts nothing, and an enqueue that succeeds has
    committed the operations of attempt 0. *)
Theorem C10_enqueue_never_retries
  (operationID : string) (receiver : names_Tag) (actionName : string)
  (payload : Payload) (db : Database)
  (c rid : string) (v : Number) (d : actionDoc) (ndoc : actionNotificationDoc) :
  String.length actionName ≠ 0%nat →
  tagToCollectionAndId receiver = Ok (c, rid) →
  AgentVersion = Ok v →
  newActionDoc operationID receiver actionName payload v = Ok (d, ndoc) →
  (∀ ops attempt live parent ops',
     EnqueueAction_build ops attempt live parent = Ok ops' →
     attempt = 0%nat ∧ live = Ok true ∧ ops' = ops)
  ∧ (∀ ops attempt live parent,
       attempt ≠ 0%nat →
       EnqueueAction_build ops attempt live parent
       = Err match live with
             | Err err => err
             | Ok false => ErrDead
             | Ok true =>
                 match parent with
                 | Err err => Traced err
                 | Ok _ => Errorf_unexpected_attempt attempt
                 end
             end)
  ∧ (∀ attempt l db0,
       EnqueueAction_buildTxn c rid operationID
         (EnqueueAction_ops c rid operationID d ndoc) attempt l db0
       = (EnqueueAction_build (EnqueueAction_ops c rid operationID d ndoc) attempt
            (isNotDead db0 c rid) (Model_Operation db0 operationID), l))
  ∧ (operations db !! docID operationID = None →
     ∃ e, Model_Operation db operationID = Err e ∧ IsNotFound (Traced e) = true)
  ∧ (applyOps (EnqueueAction_ops c rid operationID d ndoc) db = None →
     ∃ e, EnqueueAction operationID receiver actionName payload db = (Err e, db)
          ∧ ((2 ≤ nrRetries)%nat →
             e = match isNotDead db c rid with
                 | Err err => err
                 | Ok false => ErrDead
                 | Ok true =>
                     match Model_Operation db operationID with
                     | Err err => Traced err
                     | Ok _ => Errorf_unexpected_attempt 1
                     end
                 end))
  ∧ (∀ act db',
       EnqueueAction operationID receiver actionName payload db = (Ok act, db') →
       applyOps (EnqueueAction_ops c rid operationID d ndoc) db = Some db'
       ∧ act = newAction d).
Proof.
  intros Hname Htag Hver Hnew.
  split; [apply EnqueueAction_build_ops|].
  split; [intros; by apply EnqueueAction_build_later|].
  split; [done|].
  split.
  { intros Hgone. unfold Model_Operation. rewrite Hgone. by eexists. }
  split.
  { intros Habort.
    rewrite (EnqueueAction_aborted operationID receiver actionName payload db
               c rid v d ndoc) by done.
    eexists. split; [done|]. intros Hbudget.
    destruct nrRetries as [|[|budget]]; [lia | lia |]. done. }
  intros act db' Hen.
  destruct (applyOps (EnqueueAction_ops c rid operationID d ndoc) db)
    as [db1|] eqn:Happ.
  - pose proof (EnqueueAction_committed _ _ _ _ _ _ _ Hen)
      as (v' & d' & ndoc' & Hv' & Hnew' & -> & Hd' & Hn' & ->).
    rewrite Hver in Hv'. injection Hv' as <-.
    rewrite Hnew in Hnew'. injection Hnew' as <- <-.
    apply applyOps_enqueue_inv in Happ as (_ & _ & _ & _ & ->). done.
  - rewrite (EnqueueAction_aborted operationID receiver actionName payload db
               c rid v d ndoc) in Hen by done.
    done.
Qed.

End Properties.

(** ** The properties at work on the example database *)

Lemma C1_last_child_sets_precedence_status_witness :
  isTerminal ActionCompleted = true
  ∧ actions exampleDb !! "m:1" = Some (exampleAction "1" "7" ActionFailed [])
  ∧ actions exampleDb !! "m:2" = Some (exampleAction "2" "7" ActionRunning [])
  ∧ isErr exampleFinish.1 = false
  ∧ ∃ od',
      operations exampleFinish.2 !! "m:7" = Some od'
      ∧ oStatus od' = ActionFailed
      ∧ oCompleteTaskCount od' = 2.
Proof.
  split; [reflexivity|]. split; [vm_compute; reflexivity|].
  split; [vm_compute; reflexivity|]. split; [vm_compute; reflexivity|].
  destruct (@C1_last_child_sets_precedence_status exampleBackend
              (exampleHandle "2") ActionCompleted [("outcome", "ok")] "done"
              exampleDb exampleFinish.2
              (match exampleFinish.1 with Ok r => r | Err _ => exampleHandle "2" end)
              (exampleAction "2" "7" ActionRunning [])
              (exampleOperation "7" ActionRunning 1))
    as [(od' & s & Hod' & _ & Hs & _ & Hcount & Hfailed) _].
  - reflexivity.
  - reflexivity.
  - vm_compute; reflexivity.
  - reflexivity.
  - vm_compute; reflexivity.
  - reflexivity.
  - intros k d Hk Hop Hne.
    assert (Hcases : k = "m:1" ∨ k = "m:2" ∨ k = "m:3" ∨ k = "m:4" ∨ k = "m:9").
    { apply elem_of_dom_2 in Hk. revert Hk. unfold exampleDb. cbn [actions].
      rewrite !dom_insert_L, dom_empty_L. set_solver. }
    destruct Hcases as [-> | [-> | [-> | [-> | ->]]]];
      vm_compute in Hk; injection Hk as <-;
      first [reflexivity | discriminate Hop | by destruct Hne].
  - vm_compute; reflexivity.
  - exists od'. split; [exact Hod'|]. split.
    + rewrite Hs. apply Hfailed.
      assert (Htasks : tasksOf exampleFinish.2 "7" = [ActionFailed; ActionCompleted])
        by (vm_compute; reflexivity).
      change (ActionFailed ∈ tasksOf exampleFinish.2 "7").
      rewrite Htasks. apply elem_of_cons. by left.
    + rewrite Hcount. vm_compute; reflexivity.
Defined.

Lemma C2_log_with_1000_entries_appends_witness :
  length (Logs (doc (exampleHandle "9"))) = 1000%nat
  ∧ Status (doc (exampleHandle "9")) = ActionRunning
  ∧ ∃ db' d',
      @Log exampleBackend (exampleHandle "9") "tock" exampleDb = (None, db')
      ∧ actions db' !! "m:9" = Some d'
      ∧ length (Logs d') = 1001%nat.
Proof.
  split; [vm_compute; reflexivity|]. split; [vm_compute; reflexivity|].
  destruct (@C2_log_with_1000_entries_appends exampleBackend (exampleHandle "9")
              "tock" exampleDb (doc (exampleHandle "9")))
    as [(db' & d' & Hlog & Hd' & _ & Hlen) _].
  - reflexivity.
  - cbn. lia.
  - vm_compute; reflexivity.
  - vm_compute; reflexivity.
  - vm_compute; reflexivity.
  - vm_compute; reflexivity.
  - vm_compute; reflexivity.
  - exists db', d'. split; [exact Hlog|]. split; [exact Hd' | exact Hlen].
Defined.

Lemma C3_finish_advances_counter_by_one_witness :
  isErr exampleFinish.1 = false
  ∧ ∃ od',
      operations exampleFinish.2 !! "m:7" = Some od'
      ∧ oCompleteTaskCount od' = 2
      ∧ oCompleteTaskCount od' = Z.of_nat (length (tasksOf exampleFinish.2 "7"))
      ∧ isTerminal (oStatus od') = true.
Proof.
  split; [vm_compute; reflexivity|].
  destruct (@C3_finish_advances_counter_by_one exampleBackend (exampleHandle "2")
              ActionCompleted [("outcome", "ok")] "done" exampleDb exampleFinish.2
              (match exampleFinish.1 with Ok r => r | Err _ => exampleHandle "2" end)
              (exampleAction "2" "7" ActionRunning [])
              (exampleOperation "7" ActionRunning 1))
    as [(od' & Hod' & _ & Hcount & _ & _ & _ & Hlast & _) _].
  - reflexivity.
  - reflexivity.
  - vm_compute; reflexivity.
  - reflexivity.
  - vm_compute; reflexivity.
  - reflexivity.
  - vm_compute; reflexivity.
  - exists od'. split; [exact Hod'|].
    assert (Htwo : oCompleteTaskCount od' = 2)
      by (rewrite Hcount; [reflexivity | vm_compute; reflexivity]).
    assert (Hlen : Z.of_nat (length (tasksOf exampleFinish.2 "7")) = 2)
      by (vm_compute; reflexivity).
    split; [exact Htwo|]. split; [by rewrite Htwo, Hlen|].
    apply Hlast. cbn [Operation doc exampleHandle]. by rewrite Htwo.
Defined.

Lemma C4_begin_sets_running_witness :
  Status (exampleAction "4" "8" ActionPending []) = ActionPending
  ∧ (@Begin exampleBackend (exampleHandle "4") exampleDb).1
    = Ok (newAction (beganAction (exampleAction "4" "8" ActionPending [])
                       1600000000))
  ∧ operations (@Begin exampleBackend (exampleHandle "4") exampleDb).2 !! "m:8"
    = Some (beganOperation (exampleOperation "8" ActionPending 0) 1600000000).
Proof.
  split; [reflexivity|].
  destruct (@C4_begin_sets_running exampleBackend (exampleHandle "4") exampleDb
              (exampleAction "4" "8" ActionPending []))
    as (_ & _ & Hpending & _).
  - reflexivity.
  - vm_compute; reflexivity.
  - reflexivity.
  - intros od Hod. vm_compute in Hod. injection Hod as <-. reflexivity.
  - rewrite Hpending.
    + split; [reflexivity|]. vm_compute; reflexivity.
    + reflexivity.
    + cbn. lia.
    + reflexivity.
Defined.

Lemma C5_finish_guard_and_notification_witness :
  actions exampleDb !! "m:2" = Some (exampleAction "2" "7" ActionRunning [])
  ∧ is_Some (actionNotifications exampleDb !! "m:u/0_a_2")
  ∧ isErr exampleFinish.1 = false
  ∧ actionNotifications exampleFinish.2 !! "m:u/0_a_2" = None
  ∧ (∃ e, @Finish exampleBackend (exampleHandle "1")
            (mkActionResults ActionCompleted [] "") exampleDb = (Err e, exampleDb)).
Proof.
  split; [vm_compute; reflexivity|].
  split; [vm_compute; eexists; reflexivity|].
  split; [vm_compute; reflexivity|].
  split.
  - destruct (@C5_finish_guard_and_notification exampleBackend (exampleHandle "2")
                (mkActionResults ActionCompleted [("outcome", "ok")] "done")
                exampleDb (exampleAction "2" "7" ActionRunning []))
      as (_ & _ & _ & Hdone & _); [vm_compute; reflexivity|].
    destruct (Hdone (match exampleFinish.1 with
                     | Ok r => r | Err _ => exampleHandle "2" end)
                exampleFinish.2) as (_ & _ & Hn & _); [vm_compute; reflexivity|].
    rewrite Hn. apply lookup_delete_eq.
  - destruct (@C5_finish_guard_and_notification exampleBackend (exampleHandle "1")
                (mkActionResults ActionCompleted [] "")
                exampleDb (exampleAction "1" "7" ActionFailed []))
      as (_ & _ & Hagain & _); [vm_compute; reflexivity|].
    apply Hagain. reflexivity.
Defined.

Lemma C6_action_id_allocation_witness :
  ∃ d ndoc,
    @newActionDoc exampleBackend "7" (mkTag "unit" "u/0") "restart" []
      (mkNumber 2 8 "" 0 0) = Ok (d, ndoc)
    ∧ DocId d = "m:42" ∧ nActionID ndoc = "42" ∧ nDocId ndoc = "m:u/0_a_42".
Proof.
  destruct (@C6_action_id_allocation exampleBackend "7" (mkTag "unit" "u/0")
              "restart" [] (mkNumber 2 8 "" 0 0))
    as (_ & Hunit & _).
  destruct Hunit as [Hseq _]; [reflexivity | reflexivity |].
  eexists _, _. split; [apply (Hseq 42); reflexivity|].
  split; [reflexivity|]. split; reflexivity.
Defined.

Lemma C7_find_action_tags_by_id_witness :
  @FindActionTagsById_filter exampleBackend (mkNumber 2 8 "" 0 0) "0a1b"
  = FilterIdRegex "^m:0a1b"
  ∧ @FindActionTagsById_filter exampleBackend (mkNumber 2 8 "" 0 0) "42"
    = FilterIdIs "m:42"
  ∧ @FindActionTagsById_filter exampleBackend (mkNumber 2 5 "" 0 0) "42"
    = FilterIdRegex "^m:42".
Proof.
  split.
  - destruct (@C7_find_action_tags_by_id exampleBackend (mkNumber 2 8 "" 0 0) "0a1b")
      as (Hold & _).
    apply Hold. right. reflexivity.
  - split.
    + destruct (@C7_find_action_tags_by_id exampleBackend (mkNumber 2 8 "" 0 0) "42")
        as (_ & Hnew & _).
      apply Hnew; reflexivity.
    + destruct (@C7_find_action_tags_by_id exampleBackend (mkNumber 2 5 "" 0 0) "42")
        as (Hold & _).
      apply Hold. left. reflexivity.
Defined.

Lemma C8_log_requires_running_witness :
  (length (Logs (doc (exampleHandle "4"))) ≤ 1000)%nat
  ∧ Status (doc (exampleHandle "4")) ≠ ActionRunning
  ∧ @Log exampleBackend (exampleHandle "4") "tock" exampleDb
    = (Some (Traced (Errorf_cannot_log "4" ActionPending)), exampleDb).
Proof.
  assert (Hlen : (length (Logs (doc (exampleHandle "4"))) ≤ 1000)%nat)
    by (apply Nat.leb_le; vm_compute; reflexivity).
  assert (Hs : Status (doc (exampleHandle "4")) ≠ ActionRunning)
    by (vm_compute; discriminate).
  split; [exact Hlen|]. split; [exact Hs|].
  destruct (@C8_log_requires_running exampleBackend (exampleHandle "4") "tock"
              exampleDb Hlen Hs) as (_ & Hexact & _).
  apply Hexact; [reflexivity | cbn; lia].
Defined.

Lemma C9_not_found_is_distinct_and_orphans_proceed_witness :
  operations exampleDb !! "m:" = None
  ∧ (@Begin exampleBackend (exampleHandle "3") exampleDb).1
    = Ok (newAction (beganAction (exampleAction "3" "" ActionPending [])
                       1600000000))
  ∧ operations (@Begin exampleBackend (exampleHandle "3") exampleDb).2
    = operations exampleDb.
Proof.
  assert (Hgone : operations exampleDb !! "m:" = None) by (vm_compute; reflexivity).
  split; [exact Hgone|].
  destruct (@C9_not_found_is_distinct_and_orphans_proceed exampleBackend
              (exampleHandle "3") exampleDb eq_refl Hgone)
    as (_ & _ & _ & _ & _ & _ & _ & _ & Hcommit).
  destruct (Hcommit (exampleAction "3" "" ActionPending [])) as [Hbegin _].
  - vm_compute; reflexivity.
  - cbn. lia.
  - reflexivity.
  - rewrite Hbegin by reflexivity. split; reflexivity.
Defined.

Lemma C10_enqueue_never_retries_witness :
  isErr exampleEnqueue.1 = false
  ∧ is_Some (actions exampleEnqueue.2 !! "m:42")
  ∧ (∃ e, @EnqueueAction exampleBackend "7" (mkTag "unit" "u/0") "restart" []
            exampleEnqueue.2 = (Err e, exampleEnqueue.2)
          ∧ e = Errorf_unexpected_attempt 1).
Proof.
  split; [vm_compute; reflexivity|].
  split; [vm_compute; eexists; reflexivity|].
  destruct (@newActionDoc exampleBackend "7" (mkTag "unit" "u/0") "restart" []
              (mkNumber 2 8 "" 0 0)) as [[d ndoc]|e] eqn:Hnew;
    [|vm_compute in Hnew; discriminate].
  destruct (@C10_enqueue_never_retries exampleBackend "7" (mkTag "unit" "u/0")
              "restart" [] exampleEnqueue.2 "units" "u/0" (mkNumber 2 8 "" 0 0)
              d ndoc) as (_ & _ & _ & _ & Habort & _).
  - cbn. lia.
  - reflexivity.
  - reflexivity.
  - exact Hnew.
  - destruct Habort as (e & Hen & He).
    + vm_compute in Hnew. injection Hnew as <- <-. vm_compute; reflexivity.
    + exists e. split; [exact Hen|]. rewrite He by (cbn; lia).
      vm_compute; reflexivity.
Defined.
